(** * Smart Auto Loan Planner: the financial projection engine

    A shallow embedding of [finance_calculator.py] and of the calculation
    block of [app.py], with the properties of the specification stated and
    settled over it.

    Numbers.  Python's [int] and [float] values are modelled by exact
    rationals in lowest terms ([Qc]): every arithmetic operator is the exact
    one, so rounding, overflow, [inf] and [nan] are outside the model, and
    equality of amounts is plain [=].  Integers that drive control flow
    ([term_years], loop counters) are [Z].  Where a statement turns on
    rounding, the payment is also given with its operators in binary64
    ([calculate_emi_b64]).

    Errors.  A Python exception is a value of [PyError]; fallible code
    returns [result].  Division is the only operator of the modelled code
    that can raise on numbers ([ZeroDivisionError]); a string met where a
    number is needed raises [TypeError]. *)

From Stdlib Require Import QArith Qcanon ZArith Lia Lqa.
From Stdlib Require SpecFloat.
From stdpp Require Import numbers strings list fin_maps gmap.

Local Open Scope Z_scope.
Local Open Scope Qc_scope.

(** ** Python values and exceptions *)

(** [InvalidTermError] is the error the specification names for a zero-term
    loan; no modelled function raises it. *)
Inductive PyError : Set :=
| ZeroDivisionError
| TypeError
| KeyError
| InvalidTermError.

Inductive result (A : Type) : Type :=
| Ok (a : A)
| Raise (e : PyError).

Arguments Ok {A} a.
Arguments Raise {A} e.

#[global] Instance result_ret : MRet result := fun A a => Ok a.

#[global] Instance result_bind : MBind result := fun A B k m =>
  match m with
  | Ok a => k a
  | Raise e => Raise e
  end.

(** [a / b]: Python's true division raises on a zero divisor. *)
Definition py_truediv (a b : Qc) : result Qc :=
  if bool_decide (b = 0) then Raise ZeroDivisionError else Ok (a / b).

(** [b ** e] for an integer exponent.  Both call sites have a base that is
    not zero ([1 + monthly_rate] under [monthly_rate > 0], and [1 - 0.15]),
    where a negative exponent is the inverse of the positive power. *)
Definition py_pow (b : Qc) (e : Z) : Qc :=
  match e with
  | Z0 => 1
  | Zpos p => b ^ Pos.to_nat p
  | Zneg p => / (b ^ Pos.to_nat p)
  end.

(** [max(a, b)] of the built-ins: the first argument unless the second is
    strictly greater. *)
Definition py_max (a b : Qc) : Qc := if bool_decide (a < b) then b else a.

(** [range(n)] as the list of its values; empty when [n <= 0]. *)
Definition py_range (n : Z) : list Z :=
  map Z.of_nat (seq 0 (Z.to_nat n)).

(** ** finance_calculator.py *)

(** [calculate_emi(principal, annual_rate, term_years)]. *)
Definition calculate_emi (principal annual_rate : Qc) (term_years : Z) : result Qc :=
  let monthly_rate := (annual_rate / Qc_of_Z 100) / Qc_of_Z 12 in
  let term_months := (term_years * 12)%Z in
  if bool_decide (0 < monthly_rate) then
    py_truediv (principal * (monthly_rate * py_pow (1 + monthly_rate) term_months))
               (py_pow (1 + monthly_rate) term_months - 1)
  else
    if bool_decide (0 < term_months)%Z
    then py_truediv principal (Qc_of_Z term_months)
    else Ok 0.

(** A value stored in a [vehicle_info] dict: a number (the cost and
    efficiency columns) or a string (make, model, fuel type). *)
Inductive pyval : Type :=
| PNum (q : Qc)
| PStr (s : string).

(** A value used as a number.  In the modelled code a string in a numeric
    position ends in [TypeError] on every path ([str * int] is a [str], which
    the sum of line 66 then rejects; [str > 0] and [float * str] raise at
    once), and no other exception is reachable there, so the model raises
    where the value is read. *)
Definition as_num (v : pyval) : result Qc :=
  match v with
  | PNum q => Ok q
  | PStr _ => Raise TypeError
  end.

(** [v == s] for a string literal [s]: a number never equals a string. *)
Definition py_eq_str (v : pyval) (s : string) : bool :=
  match v with
  | PStr t => bool_decide (t = s)
  | PNum _ => false
  end.

(** [not vehicle_info]: [None] and the empty dict are falsy. *)
Definition falsy (vehicle_info : option (gmap string pyval)) : bool :=
  match vehicle_info with
  | None => true
  | Some d => bool_decide (size d = 0%nat)
  end.

(** [d.get(key, dflt)]. *)
Definition get (d : gmap string pyval) (key : string) (dflt : pyval) : pyval :=
  default dflt (d !! key).

(** The dict a function returns, in insertion order. *)
Definition breakdown : Type := list (string * Qc).

Fixpoint breakdown_get (b : breakdown) (key : string) (dflt : Qc) : Qc :=
  match b with
  | [] => dflt
  | (k, v) :: rest => if bool_decide (k = key) then v else breakdown_get rest key dflt
  end.

(** [calculate_total_cost_of_ownership(vehicle_info, total_loan_cost,
    term_years, gas_price, electricity_price)]. *)
Definition calculate_total_cost_of_ownership
    (vehicle_info : option (gmap string pyval)) (total_loan_cost : Qc)
    (term_years : Z) (gas_price electricity_price : Qc) : result breakdown :=
  match vehicle_info with
  | None => Ok []
  | Some d =>
    if falsy (Some d) then Ok [] else
    ins ← as_num (get d "avg_insurance_per_year" (PNum 0));
    let insurance_cost := ins * Qc_of_Z term_years in
    mnt ← as_num (get d "avg_maintenance_per_year" (PNum 0));
    let maintenance_cost := mnt * Qc_of_Z term_years in
    let fuel_type := get d "fuel_type" (PStr "Gas") in
    let efficiency := get d "efficiency" (PNum (Qc_of_Z 30)) in
    let annual_miles := Qc_of_Z 12000 in
    total_fuel_charging_cost ←
      (if py_eq_str fuel_type "Gas" then
         efficiency ← as_num efficiency;
         gallons_per_year ←
           (if bool_decide (0 < efficiency) then py_truediv annual_miles efficiency
            else Ok 0);
         Ok (gallons_per_year * gas_price * Qc_of_Z term_years)
       else if py_eq_str fuel_type "Electric" then
         efficiency ← as_num efficiency;
         let kwh_per_year := (annual_miles / Qc_of_Z 100) * efficiency in
         Ok (kwh_per_year * electricity_price * Qc_of_Z term_years)
       else Ok 0);
    let total_tco :=
      total_loan_cost + insurance_cost + maintenance_cost + total_fuel_charging_cost in
    Ok [ ("Loan Payments"%string, total_loan_cost);
         ("Insurance"%string, insurance_cost);
         ("Maintenance"%string, maintenance_cost);
         ("Fuel/Charging"%string, total_fuel_charging_cost);
         ("Total TCO"%string, total_tco) ]
  end.

(** One row of the schedule: [{"Year", "Loan_Balance", "Car_Value"}]. *)
Record Row : Type := mkRow {
  Year : Z;
  Loan_Balance : Qc;
  Car_Value : Qc
}.

Definition annual_depreciation_rate : Qc := Q2Qc (15 # 100).

(** The body of [for _ in range(12)]: one monthly payment. *)
Definition monthly_payment (annual_rate emi remaining_balance : Qc) : Qc :=
  let interest_payment :=
    remaining_balance * (annual_rate / Qc_of_Z 100 / Qc_of_Z 12) in
  let principal_payment := emi - interest_payment in
  remaining_balance - principal_payment.

(** The body of [for year in range(term_years + 1)], over the years still to
    visit; [remaining_balance] is the loop-carried variable. *)
Fixpoint schedule_loop (annual_rate emi vehicle_price : Qc)
    (years : list Z) (remaining_balance : Qc) : list Row :=
  match years with
  | [] => []
  | year :: rest =>
    let '(remaining_balance, depreciated_value) :=
      if bool_decide (year = 0%Z) then (remaining_balance, vehicle_price)
      else (Nat.iter 12 (monthly_payment annual_rate emi) remaining_balance,
            vehicle_price * py_pow (1 - annual_depreciation_rate) year) in
    mkRow year (py_max 0 remaining_balance) depreciated_value
      :: schedule_loop annual_rate emi vehicle_price rest remaining_balance
  end.

(** [generate_amortization_and_depreciation(principal, annual_rate,
    term_years, emi, vehicle_price, vehicle_info)]; the data frame is the list
    of its rows. *)
Definition generate_amortization_and_depreciation
    (principal annual_rate : Qc) (term_years : Z) (emi vehicle_price : Qc)
    (vehicle_info : option (gmap string pyval)) : list Row :=
  schedule_loop annual_rate emi vehicle_price
    (py_range (term_years + 1)) principal.

(** ** app.py: the calculation block *)

(** [Series.clip(lower=...)] on one entry. *)
Definition clip_lower (lower x : Qc) : Qc :=
  if bool_decide (x < lower) then lower else x.

(** [(schedule_df['Loan_Balance'] - schedule_df['Car_Value']).clip(lower=0)];
    a frame built from no rows has no columns, and selecting one raises. *)
Definition underwater_amounts (schedule_df : list Row) : result (list Qc) :=
  match schedule_df with
  | [] => Raise KeyError
  | _ => Ok (map (fun row => clip_lower 0 (Loan_Balance row - Car_Value row))
                 schedule_df)
  end.

(** [Series.max()]; [None] stands for the [nan] of an empty series. *)
Definition series_max (s : list Qc) : option Qc :=
  match s with
  | [] => None
  | x :: rest => Some (fold_left (fun m y => if bool_decide (m < y) then y else m) rest x)
  end.

Definition max_underwater (schedule_df : list Row) : result (option Qc) :=
  s ← underwater_amounts schedule_df;
  Ok (series_max s).

(** The "Financial Health" card (lines 233-245): [None] when no income is
    entered, else the ratio and the status text. *)
Definition financial_health (monthly_income : Qc) (tco_breakdown : breakdown)
    (loan_term : Z) : result (option (Qc * string)) :=
  if bool_decide (monthly_income ≠ 0) && bool_decide (0 < monthly_income) then
    monthly_tco ←
      py_truediv (breakdown_get tco_breakdown "Total TCO" 0)
                 (Qc_of_Z (loan_term * 12));
    q ← py_truediv monthly_tco monthly_income;
    let tco_ratio := q * Qc_of_Z 100 in
    let status_text :=
      if bool_decide (tco_ratio < Qc_of_Z 15) then "Good"%string
      else if bool_decide (tco_ratio < Qc_of_Z 20) then "Borderline"%string
      else "High-Risk"%string in
    Ok (Some (tco_ratio, status_text))
  else Ok None.

(** ** Notions the statements use *)

(** The loan balance after a number of monthly payments: the loop-carried
    [remaining_balance] before the clamp. *)
Definition balance_after (annual_rate emi principal : Qc) (months : nat) : Qc :=
  Nat.iter months (monthly_payment annual_rate emi) principal.

(** The row the loop records for year [i]. *)
Definition row_of_year (principal annual_rate emi vehicle_price : Qc)
    (i : nat) : Row :=
  mkRow (Z.of_nat i)
        (py_max 0 (balance_after annual_rate emi principal (12 * i)))
        (vehicle_price * (1 - annual_depreciation_rate) ^ i).

(** An amount quoted in dollars and cents: [x] rounds to [quoted] at two
    decimals. *)
Definition to_the_cent (x quoted : Qc) : Prop :=
  quoted - Q2Qc (1 # 200) <= x /\ x < quoted + Q2Qc (1 # 200).

(** A vehicle record: a dict that is not empty. *)
Definition is_record (d : gmap string pyval) : Prop := size d <> 0%nat.

(** The column [key] of a record holds a number when it is present. *)
Definition numeric (d : gmap string pyval) (key : string) : Prop :=
  forall s, d !! key <> Some (PStr s).

(** The breakdown dict of a loan cost, the two yearly costs over the term and
    an energy cost. *)
Definition breakdown_of (total_loan_cost ins mnt : Qc) (term_years : Z)
    (fuel : Qc) : breakdown :=
  [ ("Loan Payments"%string, total_loan_cost);
    ("Insurance"%string, ins * Qc_of_Z term_years);
    ("Maintenance"%string, mnt * Qc_of_Z term_years);
    ("Fuel/Charging"%string, fuel);
    ("Total TCO"%string,
     total_loan_cost + ins * Qc_of_Z term_years + mnt * Qc_of_Z term_years + fuel) ].

(** Two records to run the functions on (the catalog file is not part of the
    sources; the figures are placeholders). *)
Definition example_gas_record : gmap string pyval :=
  {[ "fuel_type"%string := PStr "Gas";
     "efficiency"%string := PNum (Qc_of_Z 30);
     "avg_insurance_per_year"%string := PNum (Qc_of_Z 1500);
     "avg_maintenance_per_year"%string := PNum (Qc_of_Z 400) ]}.

Definition example_hybrid_record : gmap string pyval :=
  {[ "fuel_type"%string := PStr "Hybrid";
     "efficiency"%string := PNum (Qc_of_Z 50);
     "avg_insurance_per_year"%string := PNum (Qc_of_Z 1400);
     "avg_maintenance_per_year"%string := PNum (Qc_of_Z 450) ]}.

(** ** app.py: the inputs of the calculation block *)

(** [needle in hay] on strings. *)
Definition py_in_str (needle hay : string) : bool :=
  match String.index 0 needle hay with
  | Some _ => true
  | None => false
  end.

(** The options of the "Credit Score" select box with the score each one
    stands for (lines 121-124), in the order of the dict. *)
Definition credit_score_map : list (string * Z) :=
  [ ("Excellent: 780+"%string, 800%Z);
    ("Good: 720-779"%string, 750%Z);
    ("Average: 660-719"%string, 690%Z);
    ("Fair: 600-659"%string, 630%Z);
    ("Poor: <600"%string, 580%Z) ].

(** Line 148: [principal = vehicle_price - down_payment]. *)
Definition loan_principal (vehicle_price down_payment : Qc) : Qc :=
  vehicle_price - down_payment.

(** Line 149: ["Used" if "Used" in credit_score_label else "New"]. *)
Definition vehicle_type (credit_score_label : string) : string :=
  if py_in_str "Used" credit_score_label then "Used"%string else "New"%string.

(** Line 152, the feature ['down_payment_percentage']. *)
Definition down_payment_percentage (down_payment vehicle_price : Qc) : result Qc :=
  if bool_decide (0 < vehicle_price) then py_truediv down_payment vehicle_price
  else Ok 0.

(** Line 153, the feature ['vehicle_type_Used']. *)
Definition vehicle_type_Used (credit_score_label : string) : Z :=
  if bool_decide (vehicle_type credit_score_label = "Used"%string) then 1%Z else 0%Z.

(** Lines 158-159. *)
Definition total_loan_cost_of (emi : Qc) (loan_term : Z) : Qc :=
  emi * Qc_of_Z (loan_term * 12).

Definition total_interest (emi : Qc) (loan_term : Z) (principal : Qc) : Qc :=
  total_loan_cost_of emi loan_term - principal.

(** Two more records to run the functions on: an electric vehicle, and a
    record that has only its name. *)
Definition example_electric_record : gmap string pyval :=
  {[ "fuel_type"%string := PStr "Electric";
     "efficiency"%string := PNum (Qc_of_Z 25);
     "avg_insurance_per_year"%string := PNum (Qc_of_Z 1800);
     "avg_maintenance_per_year"%string := PNum (Qc_of_Z 300) ]}.

Definition example_bare_record : gmap string pyval :=
  {[ "make"%string := PStr "Toyota"; "model"%string := PStr "RAV4" ]}.

(** ** finance_calculator.py in binary64

    Where a claim turns on rounding the floats are the binary64 values of
    [SpecFloat], with round-to-nearest-even operations.  The integers of a
    loan are below 2^53, so their conversion to a float is exact and the true
    division of two of them, which CPython rounds correctly, is the IEEE
    quotient. *)





(** ** Arithmetic of exact rationals *)

(** Goals over [Qc] are moved to [Q], where [lra] and [field] work modulo
    [==]. *)
Ltac qc_to_q :=
  repeat match goal with
  | H : @eq Qc _ _ |- _ => apply (f_equal this) in H
  | |- @eq Qc _ _ => apply Qc_is_canon
  end;
  unfold Qcle, Qclt, Qcminus, Qcdiv, Qcplus, Qcmult, Qcopp, Qcinv, Qc_of_Z, Q2Qc in *;
  cbn [this] in *;
  rewrite ?Qred_correct in *.

Ltac qc_lra := intros; qc_to_q; lra.

Lemma Qc_of_Z_succ (n : nat) :
  Qc_of_Z (Z.of_nat (S n)) = Qc_of_Z (Z.of_nat n) + 1.
Proof.
  qc_to_q. rewrite Nat2Z.inj_succ. unfold Z.succ. rewrite inject_Z_plus.
  reflexivity.
Qed.

Lemma Qc_of_Z_nonneg (n : Z) : (0 <= n)%Z -> 0 <= Qc_of_Z n.
Proof.
  intros H. qc_to_q. change 0%Q with (inject_Z 0). by rewrite <- Zle_Qle.
Qed.

Lemma Qc_of_Z_pos (n : Z) : (0 < n)%Z -> 0 < Qc_of_Z n.
Proof.
  intros H. qc_to_q. change 0%Q with (inject_Z 0). by rewrite <- Zlt_Qlt.
Qed.

Lemma Qc_of_Z_mult (a b : Z) : Qc_of_Z (a * b) = Qc_of_Z a * Qc_of_Z b.
Proof. qc_to_q. by rewrite inject_Z_mult. Qed.

Lemma Qcmult_nonneg (x y : Qc) : 0 <= x -> 0 <= y -> 0 <= x * y.
Proof.
  intros Hx Hy. replace 0 with (0 * y) by ring.
  by apply Qcmult_le_compat_r.
Qed.

Lemma Qcmult_pos (x y : Qc) : 0 < x -> 0 < y -> 0 < x * y.
Proof.
  intros Hx Hy. replace 0 with (0 * y) by ring.
  by apply Qcmult_lt_compat_r.
Qed.

Lemma Qc_pos_neq (x : Qc) : 0 < x -> x <> 0.
Proof. intros H ->. by apply Qclt_not_eq in H. Qed.

Lemma Qcdiv_nonneg (x y : Qc) : 0 <= x -> 0 < y -> 0 <= x / y.
Proof.
  intros Hx Hy. apply (Qcmult_lt_0_le_reg_r _ _ y); [done|].
  replace (0 * y) with 0 by ring.
  replace (x / y * y) with x; [done|].
  field. by apply Qc_pos_neq.
Qed.

Lemma Qcdiv_pos (x y : Qc) : 0 < x -> 0 < y -> 0 < x / y.
Proof.
  intros Hx Hy. destruct (Qclt_le_dec 0 (x / y)) as [|Hle]; [done|].
  exfalso. apply (Qclt_not_le _ _ Hx).
  replace x with (x / y * y) by (field; by apply Qc_pos_neq).
  replace 0 with (0 * y) by ring.
  apply Qcmult_le_compat_r; [done|]. by apply Qclt_le_weak.
Qed.

(** *** Powers of [1 + r] *)

Lemma py_pow_of_nat (b : Qc) (n : nat) : py_pow b (Z.of_nat n) = b ^ n.
Proof.
  destruct n as [|n]; [done|].
  change (Z.of_nat (S n)) with (Zpos (Pos.of_succ_nat n)).
  unfold py_pow. by rewrite SuccNat2Pos.id_succ.
Qed.

Lemma pow_ge_1 (r : Qc) (n : nat) : 0 <= r -> 1 <= (1 + r) ^ n.
Proof.
  intros Hr. induction n as [|n IH]; cbn [Qcpower]; [apply Qcle_refl|].
  assert (H : 0 <= r * (1 + r) ^ n).
  { apply Qcmult_nonneg; [done|]. apply Qcpower_pos. qc_lra. }
  replace ((1 + r) * (1 + r) ^ n) with ((1 + r) ^ n + r * (1 + r) ^ n) by ring.
  revert IH H. generalize (r * (1 + r) ^ n) as v, ((1 + r) ^ n) as a. qc_lra.
Qed.

Lemma pow_gt_1 (r : Qc) (n : nat) : 0 < r -> (0 < n)%nat -> 1 < (1 + r) ^ n.
Proof.
  intros Hr Hn. destruct n as [|n]; [lia|]. cbn [Qcpower].
  pose proof (pow_ge_1 r n (Qclt_le_weak _ _ Hr)) as Hge.
  assert (H : 0 < r * (1 + r) ^ n).
  { apply Qcmult_pos; [done|]. revert Hge. generalize ((1 + r) ^ n). qc_lra. }
  replace ((1 + r) * (1 + r) ^ n) with ((1 + r) ^ n + r * (1 + r) ^ n) by ring.
  revert Hge H. generalize (r * (1 + r) ^ n) as v, ((1 + r) ^ n) as a. qc_lra.
Qed.

(** Bernoulli's inequality in the form the payment formula needs:
    [(1 + r)^n - 1 <= n * r * (1 + r)^n]. *)
Lemma pow_annuity_bound (r : Qc) (n : nat) :
  0 <= r ->
  (1 + r) ^ n - 1 <= Qc_of_Z (Z.of_nat n) * r * (1 + r) ^ n.
Proof.
  intros Hr. induction n as [|n IH].
  - change (1 - 1 <= Qc_of_Z 0 * r * 1).
    replace (Qc_of_Z 0) with 0 by (by apply Qc_is_canon).
    replace (0 * r * 1) with 0 by ring. clear. qc_lra.
  - rewrite Qc_of_Z_succ. cbn [Qcpower].
    pose proof (pow_ge_1 r n Hr) as Hge.
    pose proof (Qc_of_Z_nonneg (Z.of_nat n) (Nat2Z.is_nonneg n)) as Hn.
    revert IH Hge Hn. generalize ((1 + r) ^ n) as a.
    generalize (Qc_of_Z (Z.of_nat n)) as k. intros k a IH Hge Hn.
    assert (Ha : 0 <= a) by (revert Hge; clear; qc_lra).
    assert (H1 : 0 <= r * a) by auto using Qcmult_nonneg.
    assert (H2 : 0 <= k * (r * (r * a))) by auto using Qcmult_nonneg.
    assert (H3 : 0 <= r * (r * a)) by auto using Qcmult_nonneg.
    replace ((k + 1) * r * ((1 + r) * a))
      with (k * r * a + r * a + k * (r * (r * a)) + r * (r * a)) by ring.
    replace ((1 + r) * a - 1) with ((a - 1) + r * a) by ring.
    revert IH H1 H2 H3.
    generalize (k * r * a) as u, (k * (r * (r * a))) as w, (r * (r * a)) as z,
      (r * a) as v.
    clear. qc_lra.
Qed.

(** ** The monthly payment *)

Lemma py_truediv_ok (a b : Qc) : b <> 0 -> py_truediv a b = Ok (a / b).
Proof. intros Hb. unfold py_truediv. by rewrite bool_decide_eq_false_2. Qed.

Lemma py_truediv_zero (a : Qc) : py_truediv a 0 = Raise ZeroDivisionError.
Proof. done. Qed.

Lemma monthly_rate_nonneg (annual_rate : Qc) :
  0 <= annual_rate -> 0 <= annual_rate / Qc_of_Z 100 / Qc_of_Z 12.
Proof.
  intros H. apply Qcdiv_nonneg; [apply Qcdiv_nonneg|]; done.
Qed.

(** With a positive term the exponent of the annuity formula is the number of
    months as a natural number. *)
Lemma term_months_nat (term_years : Z) :
  (0 < term_years)%Z ->
  exists n : nat, (0 < n)%nat /\ (term_years * 12)%Z = Z.of_nat n
    /\ n = (12 * Z.to_nat term_years)%nat.
Proof. intros H. exists (Z.to_nat (term_years * 12)). lia. Qed.

(** The value [calculate_emi] returns on a positive rate and term. *)
Lemma calculate_emi_annuity (principal annual_rate : Qc) (term_years : Z) (n : nat) :
  let r := annual_rate / Qc_of_Z 100 / Qc_of_Z 12 in
  0 < r -> (0 < n)%nat -> (term_years * 12)%Z = Z.of_nat n ->
  calculate_emi principal annual_rate term_years
  = Ok (principal * (r * (1 + r) ^ n) / ((1 + r) ^ n - 1)).
Proof.
  intros r Hr Hn Hm. unfold calculate_emi. fold r.
  rewrite bool_decide_eq_true_2 by done.
  rewrite Hm, py_pow_of_nat. apply py_truediv_ok.
  pose proof (pow_gt_1 r n Hr Hn) as Hgt. apply Qc_pos_neq.
  revert Hgt. generalize ((1 + r) ^ n). clear. qc_lra.
Qed.

(** The value [calculate_emi] returns on a zero rate and a positive term. *)
Lemma calculate_emi_flat (principal annual_rate : Qc) (term_years : Z) :
  ~ 0 < annual_rate / Qc_of_Z 100 / Qc_of_Z 12 -> (0 < term_years)%Z ->
  calculate_emi principal annual_rate term_years
  = Ok (principal / Qc_of_Z (term_years * 12)).
Proof.
  intros Hr Ht. unfold calculate_emi.
  rewrite bool_decide_eq_false_2 by done.
  rewrite bool_decide_eq_true_2 by lia.
  apply py_truediv_ok, Qc_pos_neq, Qc_of_Z_pos. lia.
Qed.

(** On a rate that is not negative and a positive term [calculate_emi]
    returns a payment. *)
Lemma calculate_emi_returns (principal annual_rate : Qc) (term_years : Z) :
  0 <= annual_rate -> (0 < term_years)%Z ->
  exists emi, calculate_emi principal annual_rate term_years = Ok emi.
Proof.
  intros HR HT.
  destruct (term_months_nat term_years HT) as (n & Hn & Hm & _).
  destruct (Qclt_le_dec 0 (annual_rate / Qc_of_Z 100 / Qc_of_Z 12)) as [Hr|Hr].
  - eexists. by apply (calculate_emi_annuity _ _ _ n).
  - eexists. apply calculate_emi_flat; [by apply Qcle_not_lt|done].
Qed.



(** ** The schedule *)

Lemma py_max_0_nonneg (x : Qc) : 0 <= py_max 0 x.
Proof.
  unfold py_max. case_bool_decide; [by apply Qclt_le_weak|apply Qcle_refl].
Qed.

Lemma py_max_0_id (x : Qc) : 0 <= x -> py_max 0 x = x.
Proof.
  intros Hx. unfold py_max. case_bool_decide as H; [done|].
  apply Qcnot_lt_le in H. by apply Qcle_antisym.
Qed.

Lemma balance_after_year (annual_rate emi principal : Qc) (k : nat) :
  Nat.iter 12 (monthly_payment annual_rate emi)
    (balance_after annual_rate emi principal (12 * k))
  = balance_after annual_rate emi principal (12 * S k).
Proof.
  unfold balance_after. rewrite <- Nat.iter_add. f_equal. lia.
Qed.

Section schedule.
Variables (principal annual_rate emi vehicle_price : Qc).

(** The loop from year [s >= 1] on, entered with the balance of the end of
    year [s - 1]. *)
Lemma schedule_loop_from (len s : nat) :
  schedule_loop annual_rate emi vehicle_price
    (map Z.of_nat (seq (S s) len))
    (balance_after annual_rate emi principal (12 * s))
  = map (row_of_year principal annual_rate emi vehicle_price) (seq (S s) len).
Proof.
  revert s. induction len as [|len IH]; intros s; [done|].
  cbn [seq map schedule_loop].
  rewrite bool_decide_eq_false_2 by lia.
  rewrite balance_after_year, IH. f_equal.
  unfold row_of_year. by rewrite py_pow_of_nat.
Qed.

Lemma schedule_rows (term_years : Z) (vehicle_info : option (gmap string pyval)) :
  generate_amortization_and_depreciation principal annual_rate term_years
    emi vehicle_price vehicle_info
  = map (row_of_year principal annual_rate emi vehicle_price)
    (seq 0 (Z.to_nat (term_years + 1))).
Proof.
  unfold generate_amortization_and_depreciation, py_range.
  destruct (Z.to_nat (term_years + 1)) as [|len]; [done|].
  cbn [seq map schedule_loop]. rewrite bool_decide_eq_true_2 by done.
  change principal with (balance_after annual_rate emi principal (12 * 0)) at 2.
  rewrite schedule_loop_from. f_equal.
  unfold row_of_year. f_equal. cbn [Qcpower]. ring.
Qed.

Lemma schedule_length (term_years : Z) vehicle_info :
  length (generate_amortization_and_depreciation principal annual_rate
            term_years emi vehicle_price vehicle_info)
  = Z.to_nat (term_years + 1).
Proof. by rewrite schedule_rows, length_map, length_seq. Qed.

Lemma schedule_lookup (term_years : Z) vehicle_info (i : nat) :
  (i < Z.to_nat (term_years + 1))%nat ->
  generate_amortization_and_depreciation principal annual_rate term_years
    emi vehicle_price vehicle_info !! i
  = Some (mkRow (Z.of_nat i)
            (py_max 0 (balance_after annual_rate emi principal (12 * i)))
            (vehicle_price * (1 - annual_depreciation_rate) ^ i)).
Proof.
  intros Hi. rewrite schedule_rows, list_lookup_fmap.
  by rewrite lookup_seq_lt.
Qed.

Lemma schedule_lookup_inv (term_years : Z) vehicle_info (i : nat) (r : Row) :
  generate_amortization_and_depreciation principal annual_rate term_years
    emi vehicle_price vehicle_info !! i = Some r ->
  (i < Z.to_nat (term_years + 1))%nat /\
  r = mkRow (Z.of_nat i)
        (py_max 0 (balance_after annual_rate emi principal (12 * i)))
        (vehicle_price * (1 - annual_depreciation_rate) ^ i).
Proof.
  intros H. pose proof (lookup_lt_Some _ _ _ H) as Hi.
  rewrite schedule_length in Hi. split; [done|].
  rewrite schedule_lookup in H by done. congruence.
Qed.
End schedule.

(** *** The balance in closed form *)

Lemma balance_after_S (annual_rate emi principal : Qc) (k : nat) :
  balance_after annual_rate emi principal (S k)
  = monthly_payment annual_rate emi (balance_after annual_rate emi principal k).
Proof. done. Qed.

(** With monthly rate [r], [b_k * r = (P * r - emi) * (1 + r)^k + emi]. *)
Lemma balance_after_closed (annual_rate emi principal : Qc) (k : nat) :
  let r := annual_rate / Qc_of_Z 100 / Qc_of_Z 12 in
  balance_after annual_rate emi principal k * r
  = (principal * r - emi) * (1 + r) ^ k + emi.
Proof.
  intros r. induction k as [|k IH].
  - cbn. ring.
  - rewrite balance_after_S. unfold monthly_payment. fold r.
    set (b := balance_after annual_rate emi principal k) in *.
    replace ((b - (emi - b * r)) * r) with (b * r * (1 + r) - emi * r) by ring.
    rewrite IH. cbn [Qcpower]. ring.
Qed.

(** Without interest every payment lowers the balance by [emi]. *)
Lemma balance_after_flat (annual_rate emi principal : Qc) (k : nat) :
  annual_rate / Qc_of_Z 100 / Qc_of_Z 12 = 0 ->
  balance_after annual_rate emi principal k
  = principal - Qc_of_Z (Z.of_nat k) * emi.
Proof.
  intros Hr. induction k as [|k IH].
  - change (principal = principal - Qc_of_Z 0 * emi).
    replace (Qc_of_Z 0) with 0 by (by apply Qc_is_canon). ring.
  - rewrite balance_after_S, Qc_of_Z_succ. unfold monthly_payment.
    rewrite Hr, IH. ring.
Qed.

(** The payment [calculate_emi] returns clears the loan in [12 * term_years]
    payments. *)
Lemma balance_after_term (principal annual_rate emi : Qc) (term_years : Z) :
  0 <= annual_rate -> (0 < term_years)%Z ->
  calculate_emi principal annual_rate term_years = Ok emi ->
  balance_after annual_rate emi principal (12 * Z.to_nat term_years) = 0.
Proof.
  intros HR HT Hemi.
  destruct (term_months_nat term_years HT) as (n & Hn & Hm & Hn12).
  rewrite <- Hn12.
  pose proof (monthly_rate_nonneg annual_rate HR) as Hr0.
  pose proof (balance_after_closed annual_rate emi principal n) as Hc.
  cbv zeta in Hc.
  set (r := annual_rate / Qc_of_Z 100 / Qc_of_Z 12) in *.
  destruct (Qclt_le_dec 0 r) as [Hr|Hr].
  - rewrite (calculate_emi_annuity _ _ _ n) in Hemi by done. fold r in Hemi.
    injection Hemi as <-.
    pose proof (pow_gt_1 r n Hr Hn) as Hgt.
    set (a := (1 + r) ^ n) in *.
    assert (Ha : a - 1 <> 0).
    { apply Qc_pos_neq. revert Hgt. generalize a. clear. qc_lra. }
    replace ((principal * r - principal * (r * a) / (a - 1)) * a
             + principal * (r * a) / (a - 1)) with 0 in Hc by (by field).
    apply Qcmult_integral in Hc as [Hc|Hc]; [done|].
    by apply Qc_pos_neq in Hr.
  - assert (Hz : r = 0) by (by apply Qcle_antisym).
    rewrite calculate_emi_flat in Hemi; [|fold r; by apply Qcle_not_lt|done].
    injection Hemi as <-.
    rewrite balance_after_flat by done. rewrite Hm.
    field. apply Qc_pos_neq, Qc_of_Z_pos. lia.
Qed.

(** *** Powers of the retention factor *)

Lemma pow_pos (q : Qc) (n : nat) : 0 < q -> 0 < q ^ n.
Proof.
  intros Hq. induction n as [|n IH]; cbn [Qcpower]; [done|].
  by apply Qcmult_pos.
Qed.


(** ** Claims about the payment and the schedule *)

(** The scenario of the specification: $36,000 at 6% over 6 years. *)
Lemma scenario_emi :
  let r := Qc_of_Z 6 / Qc_of_Z 100 / Qc_of_Z 12 in
  calculate_emi (Qc_of_Z 36000) (Qc_of_Z 6) 6
  = Ok (Qc_of_Z 36000 * (r * (1 + r) ^ 72) / ((1 + r) ^ 72 - 1)).
Proof.
  intros r. apply (calculate_emi_annuity _ _ _ 72); [by vm_compute|lia|done].
Qed.

(** C2 (as stated, refuted).  The payment for $36,000 at 6% over 6 years is
    not $596.45 to the cent: the code returns more than $596.62. *)
Lemma scenario_emi_not_596_45 :
  ~ exists emi,
      calculate_emi (Qc_of_Z 36000) (Qc_of_Z 6) 6 = Ok emi /\
      to_the_cent emi (Q2Qc (59645 # 100)).
Proof.
  intros (emi & Hemi & _ & Hlt). rewrite scenario_emi in Hemi.
  injection Hemi as <-. revert Hlt. apply Qcle_not_lt. by vm_compute.
Qed.

(** The row of the last year when the payment is the one [calculate_emi]
    returns. *)
Lemma schedule_last_row (principal annual_rate : Qc) (term_years : Z)
    (vehicle_price : Qc) (vehicle_info : option (gmap string pyval)) (emi : Qc) :
  0 <= annual_rate -> (0 < term_years)%Z ->
  calculate_emi principal annual_rate term_years = Ok emi ->
  generate_amortization_and_depreciation principal annual_rate term_years
    emi vehicle_price vehicle_info !! Z.to_nat term_years
  = Some (mkRow term_years 0
            (vehicle_price
             * (1 - annual_depreciation_rate) ^ Z.to_nat term_years)).
Proof.
  intros HR HT Hemi.
  rewrite schedule_lookup by lia.
  rewrite (balance_after_term principal annual_rate emi term_years HR HT Hemi).
  rewrite py_max_0_id by apply Qcle_refl. f_equal. f_equal. lia.
Qed.

(** C2 (amended).  For a principal and a rate that are not negative and a
    positive term, with [emi] the payment [calculate_emi] returns, the last
    row of the schedule is the row of year [term_years] and its balance is
    exactly 0.  For $36,000 at 6% over 6 years the payment is $596.62 to the
    cent and the balance of year 6 is 0. *)
Theorem schedule_pays_off (principal annual_rate : Qc) (term_years : Z)
    (vehicle_price : Qc) (vehicle_info : option (gmap string pyval)) :
  0 <= principal -> 0 <= annual_rate -> (0 < term_years)%Z ->
  (exists emi final,
     calculate_emi principal annual_rate term_years = Ok emi /\
     last (generate_amortization_and_depreciation principal annual_rate
             term_years emi vehicle_price vehicle_info) = Some final /\
     Year final = term_years /\
     Loan_Balance final = 0) /\
  (exists emi final,
     calculate_emi (Qc_of_Z 36000) (Qc_of_Z 6) 6 = Ok emi /\
     to_the_cent emi (Q2Qc (59662 # 100)) /\
     generate_amortization_and_depreciation (Qc_of_Z 36000) (Qc_of_Z 6) 6
       emi vehicle_price vehicle_info !! 6%nat = Some final /\
     Year final = 6%Z /\
     Loan_Balance final = 0).
Proof.
  intros HP HR HT. split.
  - destruct (calculate_emi_returns principal annual_rate term_years HR HT)
      as (emi & Hemi).
    exists emi. eexists. split; [done|].
    split.
    { rewrite last_lookup, schedule_length.
      replace (pred (Z.to_nat (term_years + 1))) with (Z.to_nat term_years) by lia.
      by apply schedule_last_row. }
    done.
  - eexists. eexists.
    split; [apply scenario_emi|].
    split; [split; by vm_compute|].
    split.
    { apply (schedule_last_row _ _ 6%Z); [by vm_compute|lia|apply scenario_emi]. }
    done.
Qed.

Lemma schedule_pays_off_witness :
  (exists emi final,
     calculate_emi (Qc_of_Z 12000) (Qc_of_Z 5) 3 = Ok emi /\
     last (generate_amortization_and_depreciation (Qc_of_Z 12000) (Qc_of_Z 5)
             3 emi (Qc_of_Z 15000) None) = Some final /\
     Year final = 3%Z /\
     Loan_Balance final = 0) /\
  (exists emi final,
     calculate_emi (Qc_of_Z 36000) (Qc_of_Z 6) 6 = Ok emi /\
     to_the_cent emi (Q2Qc (59662 # 100)) /\
     generate_amortization_and_depreciation (Qc_of_Z 36000) (Qc_of_Z 6) 6
       emi (Qc_of_Z 15000) None !! 6%nat = Some final /\
     Year final = 6%Z /\
     Loan_Balance final = 0).
Proof.
  apply (schedule_pays_off (Qc_of_Z 12000) (Qc_of_Z 5) 3 (Qc_of_Z 15000) None);
    [by vm_compute | by vm_compute | lia].
Defined.

(** A zero term with a positive rate: the divisor [(1 + r)**0 - 1] is 0 and
    the division is not guarded. *)
Lemma calculate_emi_zero_term_positive_rate (principal annual_rate : Qc) :
  0 < annual_rate ->
  calculate_emi principal annual_rate 0 = Raise ZeroDivisionError.
Proof.
  intros HR. unfold calculate_emi.
  rewrite bool_decide_eq_true_2
    by (apply Qcdiv_pos; [apply Qcdiv_pos|]; done).
  change (0 * 12)%Z with 0%Z. cbn [py_pow].
  replace (1 - 1) with 0 by ring. apply py_truediv_zero.
Qed.

(** A zero term with a zero rate: the guarded branch returns 0. *)
Lemma calculate_emi_zero_term_zero_rate (principal : Qc) :
  calculate_emi principal 0 0 = Ok 0.
Proof. done. Qed.

(** C3.  [calculate_emi(1000, 5, 0)] raises [ZeroDivisionError]: on a zero
    term and a positive rate the result is neither 0 nor
    [InvalidTermError]. *)
Theorem calculate_emi_zero_term_unguarded :
  calculate_emi (Qc_of_Z 1000) (Qc_of_Z 5) 0 = Raise ZeroDivisionError /\
  calculate_emi (Qc_of_Z 1000) (Qc_of_Z 5) 0 <> Ok 0 /\
  calculate_emi (Qc_of_Z 1000) (Qc_of_Z 5) 0 <> Raise InvalidTermError.
Proof.
  rewrite calculate_emi_zero_term_positive_rate by (by vm_compute). done.
Qed.

(** C7.  For a principal and a rate that are not negative and a positive
    term, whatever the payment, the schedule has [term_years + 1] rows, row
    [i] is the row of year [i], the row of year 0 records the principal, and
    every row records [max(0, balance)], which is not negative. *)
Theorem schedule_shape (principal annual_rate : Qc) (term_years : Z)
    (emi vehicle_price : Qc) (vehicle_info : option (gmap string pyval)) :
  0 <= principal -> 0 <= annual_rate -> (0 < term_years)%Z ->
  let schedule :=
    generate_amortization_and_depreciation principal annual_rate term_years
      emi vehicle_price vehicle_info in
  Z.of_nat (length schedule) = (term_years + 1)%Z /\
  (exists row0, schedule !! 0%nat = Some row0 /\
     Year row0 = 0%Z /\ Loan_Balance row0 = principal) /\
  (forall (i : nat) (row : Row), schedule !! i = Some row ->
     Year row = Z.of_nat i /\
     Loan_Balance row
       = py_max 0 (balance_after annual_rate emi principal (12 * i)) /\
     0 <= Loan_Balance row).
Proof.
  intros HP HR HT schedule. subst schedule. split; [|split].
  - rewrite schedule_length. lia.
  - eexists. split; [apply schedule_lookup; lia|].
    split; [done|]. cbn. by apply py_max_0_id.
  - intros i row Hrow. apply schedule_lookup_inv in Hrow as [_ ->].
    cbn [Year Loan_Balance]. split; [done|]. split; [done|].
    apply py_max_0_nonneg.
Qed.

Lemma schedule_shape_witness :
  let schedule :=
    generate_amortization_and_depreciation (Qc_of_Z 1200) 0 2
      (Qc_of_Z 50) (Qc_of_Z 2000) None in
  Z.of_nat (length schedule) = (2 + 1)%Z /\
  (exists row0, schedule !! 0%nat = Some row0 /\
     Year row0 = 0%Z /\ Loan_Balance row0 = Qc_of_Z 1200) /\
  (forall (i : nat) (row : Row), schedule !! i = Some row ->
     Year row = Z.of_nat i /\
     Loan_Balance row
       = py_max 0 (balance_after 0 (Qc_of_Z 50) (Qc_of_Z 1200) (12 * i)) /\
     0 <= Loan_Balance row).
Proof.
  apply (schedule_shape (Qc_of_Z 1200) 0 2 (Qc_of_Z 50) (Qc_of_Z 2000) None);
    [by vm_compute | by vm_compute | lia].
Defined.



(** ** Total cost of ownership *)

Lemma py_eq_str_true (v : pyval) (s : string) :
  py_eq_str v s = true <-> v = PStr s.
Proof.
  destruct v as [q|t]; cbn; [split; discriminate|].
  rewrite bool_decide_eq_true. split; congruence.
Qed.

Lemma py_eq_str_false (v : pyval) (s : string) :
  py_eq_str v s = false <-> v <> PStr s.
Proof.
  rewrite <- py_eq_str_true. destruct (py_eq_str v s); split; congruence.
Qed.

Lemma numeric_get (d : gmap string pyval) (key : string) (dflt : Qc) :
  numeric d key -> exists q, get d key (PNum dflt) = PNum q.
Proof.
  intros H. unfold get. destruct (d !! key) as [[q|s]|] eqn:E; cbn; eauto.
  by destruct (H s).
Qed.

Lemma falsy_record (d : gmap string pyval) : is_record d -> falsy (Some d) = false.
Proof. intros H. by apply bool_decide_eq_false_2. Qed.

Section tco.
Variables (d : gmap string pyval) (total_loan_cost : Qc) (term_years : Z)
          (gas_price electricity_price : Qc) (ins mnt : Qc).
Hypothesis Hrec : is_record d.
Hypothesis Hins : get d "avg_insurance_per_year" (PNum 0) = PNum ins.
Hypothesis Hmnt : get d "avg_maintenance_per_year" (PNum 0) = PNum mnt.

Lemma tco_gas (e : Qc) :
  get d "fuel_type" (PStr "Gas") = PStr "Gas" ->
  get d "efficiency" (PNum (Qc_of_Z 30)) = PNum e ->
  calculate_total_cost_of_ownership (Some d) total_loan_cost term_years
    gas_price electricity_price
  = Ok (breakdown_of total_loan_cost ins mnt term_years
              ((if bool_decide (0 < e) then Qc_of_Z 12000 / e else 0)
               * gas_price * Qc_of_Z term_years)).
Proof.
  intros Hft He. unfold calculate_total_cost_of_ownership.
  rewrite falsy_record, Hins, Hmnt, Hft, He by done. cbn.
  rewrite (bool_decide_eq_true_2 ("Gas" = "Gas")%string) by done.
  case_bool_decide as Hpos; [|done].
  rewrite py_truediv_ok by (by apply Qc_pos_neq). done.
Qed.

Lemma tco_electric (e : Qc) :
  get d "fuel_type" (PStr "Gas") = PStr "Electric" ->
  get d "efficiency" (PNum (Qc_of_Z 30)) = PNum e ->
  calculate_total_cost_of_ownership (Some d) total_loan_cost term_years
    gas_price electricity_price
  = Ok (breakdown_of total_loan_cost ins mnt term_years
              (Qc_of_Z 12000 / Qc_of_Z 100 * e * electricity_price
               * Qc_of_Z term_years)).
Proof.
  intros Hft He. unfold calculate_total_cost_of_ownership.
  rewrite falsy_record, Hins, Hmnt, Hft, He by done. cbn.
  rewrite (bool_decide_eq_false_2 ("Electric" = "Gas")%string) by done.
  by rewrite (bool_decide_eq_true_2 ("Electric" = "Electric")%string) by done.
Qed.

Lemma tco_other :
  get d "fuel_type" (PStr "Gas") <> PStr "Gas" ->
  get d "fuel_type" (PStr "Gas") <> PStr "Electric" ->
  calculate_total_cost_of_ownership (Some d) total_loan_cost term_years
    gas_price electricity_price
  = Ok (breakdown_of total_loan_cost ins mnt term_years 0).
Proof.
  intros Hg He. unfold calculate_total_cost_of_ownership.
  rewrite falsy_record, Hins, Hmnt by done.
  apply py_eq_str_false in Hg, He. cbn. by rewrite Hg, He.
Qed.

(** Whatever the fuel type, a record with numeric columns gets a
    breakdown. *)
Lemma tco_returns :
  numeric d "efficiency" ->
  exists fuel,
    calculate_total_cost_of_ownership (Some d) total_loan_cost term_years
    gas_price electricity_price
    = Ok (breakdown_of total_loan_cost ins mnt term_years fuel).
Proof.
  intros Heff.
  destruct (numeric_get d "efficiency" (Qc_of_Z 30) Heff) as [e He].
  destruct (py_eq_str (get d "fuel_type" (PStr "Gas")) "Gas") eqn:Hg.
  { apply py_eq_str_true in Hg. eexists. by apply tco_gas. }
  destruct (py_eq_str (get d "fuel_type" (PStr "Gas")) "Electric") eqn:Hel.
  { apply py_eq_str_true in Hel. eexists. by apply tco_electric. }
  apply py_eq_str_false in Hg, Hel. eexists. by apply tco_other.
Qed.
End tco.

Lemma breakdown_of_total (loan ins mnt : Qc) (term_years : Z) (fuel : Qc) :
  let b := breakdown_of loan ins mnt term_years fuel in
  breakdown_get b "Total TCO" 0
  = breakdown_get b "Loan Payments" 0 + breakdown_get b "Insurance" 0
    + breakdown_get b "Maintenance" 0 + breakdown_get b "Fuel/Charging" 0.
Proof. done. Qed.

(** C4.  For every record whose cost and efficiency columns hold numbers,
    [calculate_total_cost_of_ownership] returns the five-field breakdown and
    its ["Total TCO"] is the sum of the four components. *)
Theorem tco_total_is_sum (d : gmap string pyval) (total_loan_cost : Qc)
    (term_years : Z) (gas_price electricity_price : Qc) :
  is_record d ->
  numeric d "avg_insurance_per_year" ->
  numeric d "avg_maintenance_per_year" ->
  numeric d "efficiency" ->
  exists b,
    calculate_total_cost_of_ownership (Some d) total_loan_cost term_years
      gas_price electricity_price = Ok b /\
    b.*1 = ["Loan Payments"; "Insurance"; "Maintenance"; "Fuel/Charging";
            "Total TCO"]%string /\
    breakdown_get b "Total TCO" 0
    = breakdown_get b "Loan Payments" 0 + breakdown_get b "Insurance" 0
      + breakdown_get b "Maintenance" 0 + breakdown_get b "Fuel/Charging" 0.
Proof.
  intros Hrec Hins Hmnt Heff.
  destruct (numeric_get d _ 0 Hins) as [ins Hi].
  destruct (numeric_get d _ 0 Hmnt) as [mnt Hm].
  destruct (tco_returns d total_loan_cost term_years gas_price
              electricity_price ins mnt Hrec Hi Hm Heff) as [fuel ->].
  eexists. split; [done|]. split; [done|]. apply breakdown_of_total.
Qed.

Lemma tco_total_is_sum_witness :
  exists b,
    calculate_total_cost_of_ownership (Some example_gas_record)
      (Qc_of_Z 35000) 5 (Q2Qc (35 # 10)) (Q2Qc (15 # 100)) = Ok b /\
    b.*1 = ["Loan Payments"; "Insurance"; "Maintenance"; "Fuel/Charging";
            "Total TCO"]%string /\
    breakdown_get b "Total TCO" 0
    = breakdown_get b "Loan Payments" 0 + breakdown_get b "Insurance" 0
      + breakdown_get b "Maintenance" 0 + breakdown_get b "Fuel/Charging" 0.
Proof.
  apply (tco_total_is_sum example_gas_record (Qc_of_Z 35000) 5
           (Q2Qc (35 # 10)) (Q2Qc (15 # 100)));
    [by vm_compute | intros s; by vm_compute ..].
Defined.

(** C9.  For a Gas record the ["Fuel/Charging"] cost is
    [(12000 / efficiency) * gas_price * term_years] when the efficiency is
    positive and 0 when the efficiency is 0, without an error; efficiency 30,
    gas at $3.50 and 5 years give $7,000. *)
Theorem gas_energy_cost (d : gmap string pyval) (total_loan_cost : Qc)
    (term_years : Z) (gas_price electricity_price efficiency : Qc) :
  is_record d ->
  numeric d "avg_insurance_per_year" ->
  numeric d "avg_maintenance_per_year" ->
  get d "fuel_type" (PStr "Gas") = PStr "Gas" ->
  get d "efficiency" (PNum (Qc_of_Z 30)) = PNum efficiency ->
  exists b fuel,
    calculate_total_cost_of_ownership (Some d) total_loan_cost term_years
      gas_price electricity_price = Ok b /\
    b !! 3%nat = Some ("Fuel/Charging"%string, fuel) /\
    (0 < efficiency ->
     fuel = Qc_of_Z 12000 / efficiency * gas_price * Qc_of_Z term_years) /\
    (efficiency = 0 -> fuel = 0) /\
    (efficiency = Qc_of_Z 30 -> gas_price = Q2Qc (35 # 10) ->
     term_years = 5%Z -> fuel = Qc_of_Z 7000).
Proof.
  intros Hrec Hins Hmnt Hft Heff.
  destruct (numeric_get d _ 0 Hins) as [ins Hi].
  destruct (numeric_get d _ 0 Hmnt) as [mnt Hm].
  rewrite (tco_gas d total_loan_cost term_years gas_price electricity_price
             ins mnt Hrec Hi Hm efficiency Hft Heff).
  eexists. eexists. split; [done|]. split; [done|].
  split; [|split].
  - intros Hpos. by rewrite bool_decide_eq_true_2.
  - intros ->. rewrite bool_decide_eq_false_2 by (by vm_compute). ring.
  - intros -> -> ->. apply Qc_is_canon. by vm_compute.
Qed.

Lemma gas_energy_cost_witness :
  exists b fuel,
    calculate_total_cost_of_ownership (Some example_gas_record)
      (Qc_of_Z 35000) 5 (Q2Qc (35 # 10)) (Q2Qc (15 # 100)) = Ok b /\
    b !! 3%nat = Some ("Fuel/Charging"%string, fuel) /\
    (0 < Qc_of_Z 30 ->
     fuel = Qc_of_Z 12000 / Qc_of_Z 30 * Q2Qc (35 # 10) * Qc_of_Z 5) /\
    (Qc_of_Z 30 = 0 -> fuel = 0) /\
    (Qc_of_Z 30 = Qc_of_Z 30 -> Q2Qc (35 # 10) = Q2Qc (35 # 10) ->
     5%Z = 5%Z -> fuel = Qc_of_Z 7000).
Proof.
  apply (gas_energy_cost example_gas_record (Qc_of_Z 35000) 5
           (Q2Qc (35 # 10)) (Q2Qc (15 # 100)) (Qc_of_Z 30));
    [by vm_compute | intros s; by vm_compute | intros s; by vm_compute
    | by vm_compute | by vm_compute].
Defined.

(** C10.  For a record whose fuel type is neither ["Gas"] nor ["Electric"],
    [calculate_total_cost_of_ownership] returns the five-field breakdown with
    a ["Fuel/Charging"] cost of 0 and a total of loan payments, insurance
    and maintenance. *)
Theorem tco_other_fuel_type (d : gmap string pyval) (total_loan_cost : Qc)
    (term_years : Z) (gas_price electricity_price : Qc) :
  is_record d ->
  numeric d "avg_insurance_per_year" ->
  numeric d "avg_maintenance_per_year" ->
  get d "fuel_type" (PStr "Gas") <> PStr "Gas" ->
  get d "fuel_type" (PStr "Gas") <> PStr "Electric" ->
  exists insurance maintenance,
    calculate_total_cost_of_ownership (Some d) total_loan_cost term_years
      gas_price electricity_price
    = Ok [ ("Loan Payments"%string, total_loan_cost);
           ("Insurance"%string, insurance);
           ("Maintenance"%string, maintenance);
           ("Fuel/Charging"%string, 0);
           ("Total TCO"%string, total_loan_cost + insurance + maintenance) ].
Proof.
  intros Hrec Hins Hmnt Hg He.
  destruct (numeric_get d _ 0 Hins) as [ins Hi].
  destruct (numeric_get d _ 0 Hmnt) as [mnt Hm].
  rewrite (tco_other d total_loan_cost term_years gas_price electricity_price
             ins mnt Hrec Hi Hm Hg He).
  exists (ins * Qc_of_Z term_years), (mnt * Qc_of_Z term_years).
  unfold breakdown_of.
  by replace (total_loan_cost + ins * Qc_of_Z term_years
              + mnt * Qc_of_Z term_years + 0)
    with (total_loan_cost + ins * Qc_of_Z term_years
          + mnt * Qc_of_Z term_years) by ring.
Qed.

Lemma tco_other_fuel_type_witness :
  exists insurance maintenance,
    calculate_total_cost_of_ownership (Some example_hybrid_record)
      (Qc_of_Z 35000) 5 (Q2Qc (35 # 10)) (Q2Qc (15 # 100))
    = Ok [ ("Loan Payments"%string, Qc_of_Z 35000);
           ("Insurance"%string, insurance);
           ("Maintenance"%string, maintenance);
           ("Fuel/Charging"%string, 0);
           ("Total TCO"%string, Qc_of_Z 35000 + insurance + maintenance) ].
Proof.
  apply (tco_other_fuel_type example_hybrid_record (Qc_of_Z 35000) 5
           (Q2Qc (35 # 10)) (Q2Qc (15 # 100)));
    [by vm_compute | intros s; by vm_compute | intros s; by vm_compute
    | by vm_compute | by vm_compute].
Defined.

(** ** The underwater series and the health check *)

Lemma clip_lower_spec (x : Qc) :
  0 <= clip_lower 0 x /\ x <= clip_lower 0 x /\
  (clip_lower 0 x = 0 \/ clip_lower 0 x = x).
Proof.
  unfold clip_lower. case_bool_decide as H.
  - split; [apply Qcle_refl|]. split; [by apply Qclt_le_weak|by left].
  - apply Qcnot_lt_le in H. split; [done|]. split; [apply Qcle_refl|by right].
Qed.

(** The running maximum [Series.max] folds with. *)
Lemma fold_max_spec (rest : list Qc) (acc : Qc) :
  let m := fold_left (fun m y => if bool_decide (m < y) then y else m) rest acc in
  (m = acc \/ m ∈ rest) /\ acc <= m /\ (forall x, x ∈ rest -> x <= m).
Proof.
  revert acc. induction rest as [|y rest IH]; intros acc; cbn.
  - split; [by left|]. split; [apply Qcle_refl|]. intros x Hx. by inversion Hx.
  - destruct (IH (if bool_decide (acc < y) then y else acc)) as (Hin & Hle & Hall).
    case_bool_decide as Hlt.
    + split; [right; destruct Hin as [->|Hin]; [left|by right]|].
      split; [apply Qcle_trans with y; [by apply Qclt_le_weak|done]|].
      intros x Hx. apply elem_of_cons in Hx as [->|Hx]; auto.
    + apply Qcnot_lt_le in Hlt.
      split; [destruct Hin as [->|Hin]; [by left|right; by right]|].
      split; [done|].
      intros x Hx. apply elem_of_cons in Hx as [->|Hx]; auto.
      by apply Qcle_trans with acc.
Qed.

Lemma series_max_spec (s : list Qc) (m : Qc) :
  series_max s = Some m -> m ∈ s /\ (forall x, x ∈ s -> x <= m).
Proof.
  destruct s as [|x rest]; [done|]. cbn. intros [= <-].
  destruct (fold_max_spec rest x) as (Hin & Hle & Hall). split.
  - destruct Hin as [->|Hin]; [left|by right].
  - intros y Hy. apply elem_of_cons in Hy as [->|Hy]; auto.
Qed.

Lemma series_max_is_Some (s : list Qc) : s <> [] -> is_Some (series_max s).
Proof. destruct s; [done|]. by eexists. Qed.

(** C5.  For the schedule of a term that is not negative, the underwater
    series has one entry per row, each entry is [max(0, balance - value)] of
    its row and is not negative, and [max_underwater] is an entry of the
    series that no entry exceeds. *)
Theorem underwater_series (principal annual_rate : Qc) (term_years : Z)
    (emi vehicle_price : Qc) (vehicle_info : option (gmap string pyval)) :
  (0 <= term_years)%Z ->
  let schedule_df :=
    generate_amortization_and_depreciation principal annual_rate term_years
      emi vehicle_price vehicle_info in
  exists series peak,
    underwater_amounts schedule_df = Ok series /\
    max_underwater schedule_df = Ok (Some peak) /\
    length series = length schedule_df /\
    (forall (i : nat) (row : Row), schedule_df !! i = Some row ->
       exists u, series !! i = Some u /\
         0 <= u /\ Loan_Balance row - Car_Value row <= u /\
         (u = 0 \/ u = Loan_Balance row - Car_Value row)) /\
    (forall u, u ∈ series -> 0 <= u) /\
    peak ∈ series /\
    (forall u, u ∈ series -> u <= peak).
Proof.
  intros HT schedule_df.
  assert (Hne : schedule_df <> []).
  { intros Hnil. apply (f_equal length) in Hnil. subst schedule_df.
    rewrite schedule_length in Hnil. cbn in Hnil. lia. }
  set (series := map (fun row => clip_lower 0 (Loan_Balance row - Car_Value row))
                     schedule_df).
  assert (Hu : underwater_amounts schedule_df = Ok series).
  { unfold underwater_amounts. by destruct schedule_df. }
  destruct (series_max_is_Some series) as [peak Hpeak].
  { subst series. by destruct schedule_df. }
  exists series, peak. split; [done|].
  split; [unfold max_underwater; rewrite Hu; cbn; by rewrite Hpeak|].
  split; [apply length_map|].
  split; [|split].
  - intros i row Hrow. eexists. split.
    + subst series. by rewrite list_lookup_fmap, Hrow.
    + apply clip_lower_spec.
  - intros u Hin. subst series. apply list_elem_of_fmap in Hin as (row & -> & _).
    apply clip_lower_spec.
  - by apply series_max_spec.
Qed.

Lemma underwater_series_witness :
  let schedule_df :=
    generate_amortization_and_depreciation (Qc_of_Z 1200) 0 2
      (Qc_of_Z 50) (Qc_of_Z 1000) None in
  exists series peak,
    underwater_amounts schedule_df = Ok series /\
    max_underwater schedule_df = Ok (Some peak) /\
    length series = length schedule_df /\
    (forall (i : nat) (row : Row), schedule_df !! i = Some row ->
       exists u, series !! i = Some u /\
         0 <= u /\ Loan_Balance row - Car_Value row <= u /\
         (u = 0 \/ u = Loan_Balance row - Car_Value row)) /\
    (forall u, u ∈ series -> 0 <= u) /\
    peak ∈ series /\
    (forall u, u ∈ series -> u <= peak).
Proof.
  apply (underwater_series (Qc_of_Z 1200) 0 2 (Qc_of_Z 50) (Qc_of_Z 1000) None).
  lia.
Defined.

(** C6.  For a positive income and a positive term the health check returns
    the ratio [total / (term * 12) / income * 100] and a status that is
    ["Good"] exactly when the ratio is below 15, ["Borderline"] exactly when
    it is at least 15 and below 20, and ["High-Risk"] exactly when it is at
    least 20; an income of $6,000 with a monthly cost of $1,200 has ratio 20
    and status ["High-Risk"]. *)
Theorem financial_health_bands (monthly_income : Qc) (tco_breakdown : breakdown)
    (loan_term : Z) :
  0 < monthly_income -> (0 < loan_term)%Z ->
  let monthly_tco :=
    breakdown_get tco_breakdown "Total TCO" 0 / Qc_of_Z (loan_term * 12) in
  let tco_ratio := monthly_tco / monthly_income * Qc_of_Z 100 in
  exists status_text,
    financial_health monthly_income tco_breakdown loan_term
      = Ok (Some (tco_ratio, status_text)) /\
    (status_text = "Good"%string <-> tco_ratio < Qc_of_Z 15) /\
    (status_text = "Borderline"%string
       <-> Qc_of_Z 15 <= tco_ratio /\ tco_ratio < Qc_of_Z 20) /\
    (status_text = "High-Risk"%string <-> Qc_of_Z 20 <= tco_ratio) /\
    (monthly_income = Qc_of_Z 6000 -> monthly_tco = Qc_of_Z 1200 ->
     tco_ratio = Qc_of_Z 20 /\ status_text = "High-Risk"%string).
Proof.
  intros Hinc HT monthly_tco tco_ratio.
  assert (H15 : Qc_of_Z 15 < Qc_of_Z 20) by (by vm_compute).
  assert (Hrun : forall s,
    s = (if bool_decide (tco_ratio < Qc_of_Z 15) then "Good"%string
         else if bool_decide (tco_ratio < Qc_of_Z 20) then "Borderline"%string
         else "High-Risk"%string) ->
    financial_health monthly_income tco_breakdown loan_term
    = Ok (Some (tco_ratio, s))).
  { intros s ->. unfold financial_health.
    rewrite (bool_decide_eq_true_2 (monthly_income ≠ 0)) by (by apply Qc_pos_neq).
    rewrite (bool_decide_eq_true_2 (0 < monthly_income)) by done. cbn.
    rewrite py_truediv_ok by (apply Qc_pos_neq, Qc_of_Z_pos; lia). cbn.
    rewrite py_truediv_ok by (by apply Qc_pos_neq). done. }
  eexists. split; [by apply Hrun|].
  assert (Hband : forall x : Qc, x = tco_ratio ->
    ((if bool_decide (x < Qc_of_Z 15) then "Good"%string
      else if bool_decide (x < Qc_of_Z 20) then "Borderline"%string
      else "High-Risk"%string) = "Good"%string <-> x < Qc_of_Z 15) /\
    ((if bool_decide (x < Qc_of_Z 15) then "Good"%string
      else if bool_decide (x < Qc_of_Z 20) then "Borderline"%string
      else "High-Risk"%string) = "Borderline"%string
       <-> Qc_of_Z 15 <= x /\ x < Qc_of_Z 20) /\
    ((if bool_decide (x < Qc_of_Z 15) then "Good"%string
      else if bool_decide (x < Qc_of_Z 20) then "Borderline"%string
      else "High-Risk"%string) = "High-Risk"%string <-> Qc_of_Z 20 <= x)).
  { intros x _. clear -H15.
    repeat case_bool_decide;
      repeat match goal with
             | H : ~ (_ < _) |- _ => apply Qcnot_lt_le in H
             end;
      (split; [|split]); (split; intros Hyp);
      try discriminate Hyp; try reflexivity; destruct_and?;
      try (exfalso; qc_to_q; lra); try (split; qc_to_q; lra);
      qc_to_q; lra. }
  destruct (Hband tco_ratio eq_refl) as (Hg & Hb & Hh).
  split; [done|]. split; [done|]. split; [done|].
  intros Hi Hm.
  assert (Hr : tco_ratio = Qc_of_Z 20).
  { subst tco_ratio. rewrite Hm, Hi. apply Qc_is_canon. by vm_compute. }
  split; [done|]. apply Hh. rewrite Hr. apply Qcle_refl.
Qed.

Lemma financial_health_bands_witness :
  let monthly_tco :=
    breakdown_get [("Total TCO"%string, Qc_of_Z 86400)] "Total TCO" 0
    / Qc_of_Z (6 * 12) in
  let tco_ratio := monthly_tco / Qc_of_Z 6000 * Qc_of_Z 100 in
  exists status_text,
    financial_health (Qc_of_Z 6000) [("Total TCO"%string, Qc_of_Z 86400)] 6
      = Ok (Some (tco_ratio, status_text)) /\
    (status_text = "Good"%string <-> tco_ratio < Qc_of_Z 15) /\
    (status_text = "Borderline"%string
       <-> Qc_of_Z 15 <= tco_ratio /\ tco_ratio < Qc_of_Z 20) /\
    (status_text = "High-Risk"%string <-> Qc_of_Z 20 <= tco_ratio) /\
    (Qc_of_Z 6000 = Qc_of_Z 6000 -> monthly_tco = Qc_of_Z 1200 ->
     tco_ratio = Qc_of_Z 20 /\ status_text = "High-Risk"%string).
Proof.
  apply (financial_health_bands (Qc_of_Z 6000)
           [("Total TCO"%string, Qc_of_Z 86400)] 6); [by vm_compute | lia].
Defined.

(** ** The payment in binary64 *)



(** ** Further properties of the payment *)

Lemma monthly_rate_pos_iff (annual_rate : Qc) :
  0 < annual_rate / Qc_of_Z 100 / Qc_of_Z 12 <-> 0 < annual_rate.
Proof.
  split; intros H.
  - replace annual_rate
      with (annual_rate / Qc_of_Z 100 / Qc_of_Z 12 * (Qc_of_Z 100 * Qc_of_Z 12))
      by (by field).
    by apply Qcmult_pos.
  - apply Qcdiv_pos; [apply Qcdiv_pos|]; done.
Qed.

Lemma Qcinv_eq_1 (x : Qc) : / x = 1 -> x = 1.
Proof.
  intros H. destruct (decide (x = 0)) as [->|Hx]; [done|].
  rewrite <- (Qcmult_inv_r x Hx), H. ring.
Qed.

(** With a positive rate the divisor of the annuity formula vanishes on a
    zero term only. *)
Lemma py_pow_neq_1 (r : Qc) (e : Z) :
  0 < r -> e <> 0%Z -> py_pow (1 + r) e <> 1.
Proof.
  intros Hr He. destruct e as [|p|p]; [done| |]; cbn [py_pow].
  - apply not_eq_sym, Qclt_not_eq, pow_gt_1; [done|lia].
  - intros H. apply Qcinv_eq_1 in H. revert H.
    apply not_eq_sym, Qclt_not_eq, pow_gt_1; [done|lia].
Qed.

(** X1.  A loan of 0 has a payment of 0 for every rate and term, except on
    a positive rate with a zero term, where the division by zero comes
    first. *)
Theorem calculate_emi_zero_principal (annual_rate : Qc) (term_years : Z) :
  ~ (0 < annual_rate /\ term_years = 0%Z) ->
  calculate_emi 0 annual_rate term_years = Ok 0.
Proof.
  intros Hcase. unfold calculate_emi.
  case_bool_decide as Hr.
  - rewrite py_truediv_ok; [f_equal; unfold Qcdiv; ring|].
    intros Heq. apply (py_pow_neq_1 _ (term_years * 12) Hr).
    + intros HT. apply Hcase. split; [by apply monthly_rate_pos_iff|lia].
    + rewrite <- (Qcplus_0_l 1) at 2. rewrite <- Heq. ring.
  - case_bool_decide as HT; [|done].
    rewrite py_truediv_ok by (apply Qc_pos_neq, Qc_of_Z_pos; lia).
    f_equal. unfold Qcdiv. ring.
Qed.

Lemma calculate_emi_zero_principal_witness :
  calculate_emi 0 (Qc_of_Z 6) 5 = Ok 0.
Proof.
  apply (calculate_emi_zero_principal (Qc_of_Z 6) 5). intros [_ H]. lia.
Defined.

(** X2.  A rate that is zero or negative is treated as no interest: on a
    positive term the payment is [principal / (term_years * 12)], the same
    payment as at a rate of 0. *)
Theorem calculate_emi_nonpositive_rate (principal annual_rate : Qc) (term_years : Z) :
  annual_rate <= 0 -> (0 < term_years)%Z ->
  calculate_emi principal annual_rate term_years
  = Ok (principal / Qc_of_Z (term_years * 12)) /\
  calculate_emi principal annual_rate term_years
  = calculate_emi principal 0 term_years.
Proof.
  intros HR HT.
  assert (Hflat : forall rate, rate <= 0 ->
    calculate_emi principal rate term_years
    = Ok (principal / Qc_of_Z (term_years * 12))).
  { intros rate Hrate. apply calculate_emi_flat; [|done].
    rewrite monthly_rate_pos_iff. by apply Qcle_not_lt. }
  split; [by apply Hflat|].
  rewrite !Hflat; [done|apply Qcle_refl|done].
Qed.

Lemma calculate_emi_nonpositive_rate_witness :
  calculate_emi (Qc_of_Z 36000) (- Qc_of_Z 2) 6
  = Ok (Qc_of_Z 36000 / Qc_of_Z (6 * 12)) /\
  calculate_emi (Qc_of_Z 36000) (- Qc_of_Z 2) 6
  = calculate_emi (Qc_of_Z 36000) 0 6.
Proof.
  apply (calculate_emi_nonpositive_rate (Qc_of_Z 36000) (- Qc_of_Z 2) 6);
    [by vm_compute | lia].
Defined.

(** The strict form of the annuity bound, for a positive rate and at least
    one month. *)
Lemma pow_annuity_bound_strict (r : Qc) (n : nat) :
  0 < r -> (0 < n)%nat ->
  (1 + r) ^ n - 1 < Qc_of_Z (Z.of_nat n) * r * (1 + r) ^ n.
Proof.
  intros Hr Hn. destruct n as [|n]; [lia|].
  pose proof (Qclt_le_weak _ _ Hr) as Hr0.
  pose proof (pow_annuity_bound r n Hr0) as IH.
  rewrite Qc_of_Z_succ. cbn [Qcpower].
  pose proof (pow_ge_1 r n Hr0) as Hge.
  pose proof (Qc_of_Z_nonneg (Z.of_nat n) (Nat2Z.is_nonneg n)) as Hk.
  revert IH Hge Hk. generalize ((1 + r) ^ n) as a.
  generalize (Qc_of_Z (Z.of_nat n)) as k. intros k a IH Hge Hk.
  assert (Ha : 0 < a) by (revert Hge; clear; qc_lra).
  assert (Ha0 : 0 <= a) by (by apply Qclt_le_weak).
  assert (H2 : 0 <= k * (r * (r * a))) by auto using Qcmult_nonneg.
  assert (H3 : 0 < r * (r * a)) by auto using Qcmult_pos.
  replace ((k + 1) * r * ((1 + r) * a))
    with (k * r * a + r * a + k * (r * (r * a)) + r * (r * a)) by ring.
  replace ((1 + r) * a - 1) with ((a - 1) + r * a) by ring.
  revert IH H2 H3.
  generalize (k * r * a) as u, (k * (r * (r * a))) as w, (r * (r * a)) as z,
    (r * a) as v.
  clear. qc_lra.
Qed.

(** X4.  With a positive principal, rate and term the payment is larger than
    the first month's interest, and the total interest is positive. *)
Theorem calculate_emi_charges_interest (principal annual_rate : Qc) (term_years : Z) :
  0 < principal -> 0 < annual_rate -> (0 < term_years)%Z ->
  exists emi,
    calculate_emi principal annual_rate term_years = Ok emi /\
    principal * (annual_rate / Qc_of_Z 100 / Qc_of_Z 12) < emi /\
    0 < total_interest emi term_years principal.
Proof.
  intros HP HR HT.
  destruct (term_months_nat term_years HT) as (n & Hn & Hm & _).
  apply monthly_rate_pos_iff in HR.
  set (r := annual_rate / Qc_of_Z 100 / Qc_of_Z 12) in *.
  eexists. split; [by apply (calculate_emi_annuity _ _ _ n)|]. fold r.
  unfold total_interest, total_loan_cost_of. rewrite Hm.
  pose proof (pow_gt_1 r n HR Hn) as Hgt.
  pose proof (pow_annuity_bound_strict r n HR Hn) as Hb.
  revert Hgt Hb. generalize ((1 + r) ^ n) as a, (Qc_of_Z (Z.of_nat n)) as k.
  intros a k Hgt Hb.
  assert (Hd : 0 < a - 1) by (revert Hgt; clear; qc_lra).
  assert (Hd' : a - 1 <> 0) by (by apply Qc_pos_neq).
  split.
  - assert (Hx : 0 < principal * r / (a - 1)).
    { apply Qcdiv_pos; [|done]. by apply Qcmult_pos. }
    replace (principal * r / (a - 1))
      with (principal * (r * a) / (a - 1) - principal * r) in Hx by (by field).
    revert Hx.
    generalize (principal * (r * a) / (a - 1)) as e, (principal * r) as i.
    clear. qc_lra.
  - assert (Hx : 0 < principal * (k * r * a - (a - 1)) / (a - 1)).
    { apply Qcdiv_pos; [|done]. apply Qcmult_pos; [done|].
      revert Hb. generalize (k * r * a). clear. qc_lra. }
    by replace (principal * (k * r * a - (a - 1)) / (a - 1))
      with (principal * (r * a) / (a - 1) * k - principal) in Hx by (by field).
Qed.

Lemma calculate_emi_charges_interest_witness :
  exists emi,
    calculate_emi (Qc_of_Z 36000) (Qc_of_Z 6) 6 = Ok emi /\
    Qc_of_Z 36000 * (Qc_of_Z 6 / Qc_of_Z 100 / Qc_of_Z 12) < emi /\
    0 < total_interest emi 6 (Qc_of_Z 36000).
Proof.
  apply (calculate_emi_charges_interest (Qc_of_Z 36000) (Qc_of_Z 6) 6);
    [by vm_compute | by vm_compute | lia].
Defined.

(** ** Further properties of the schedule *)

(** The principal portion of each payment grows by the factor [1 + r]. *)
Lemma principal_portion (annual_rate emi principal : Qc) (k : nat) :
  let r := annual_rate / Qc_of_Z 100 / Qc_of_Z 12 in
  balance_after annual_rate emi principal (S k)
  = balance_after annual_rate emi principal k
    - (emi - principal * r) * (1 + r) ^ k.
Proof.
  intros r. rewrite balance_after_S. unfold monthly_payment. fold r.
  pose proof (balance_after_closed annual_rate emi principal k) as Hc.
  cbv zeta in Hc. fold r in Hc. rewrite Hc. ring.
Qed.

Lemma py_max_0_mono (x y : Qc) : x <= y -> py_max 0 x <= py_max 0 y.
Proof.
  intros Hxy. unfold py_max. repeat case_bool_decide.
  - done.
  - exfalso. by apply H0, Qclt_le_trans with x.
  - by apply Qclt_le_weak.
  - apply Qcle_refl.
Qed.

Lemma py_max_0_nonpos (x : Qc) : x <= 0 -> py_max 0 x = 0.
Proof.
  intros Hx. unfold py_max. case_bool_decide as H; [|done].
  by apply Qcle_not_lt in Hx.
Qed.

Lemma balance_after_down (annual_rate emi principal : Qc) (k m : nat) :
  0 <= annual_rate ->
  principal * (annual_rate / Qc_of_Z 100 / Qc_of_Z 12) <= emi ->
  (k <= m)%nat ->
  balance_after annual_rate emi principal m
  <= balance_after annual_rate emi principal k.
Proof.
  intros HR Hemi Hkm. pose proof (monthly_rate_nonneg _ HR) as Hr.
  induction Hkm as [|m Hkm IH]; [apply Qcle_refl|].
  apply Qcle_trans with (balance_after annual_rate emi principal m); [|done].
  rewrite principal_portion.
  set (r := annual_rate / Qc_of_Z 100 / Qc_of_Z 12) in *.
  assert (Hx : 0 <= (emi - principal * r) * (1 + r) ^ m).
  { apply Qcmult_nonneg.
    - revert Hemi. generalize (principal * r). clear. qc_lra.
    - apply Qcpower_pos. revert Hr. generalize r. clear. qc_lra. }
  revert Hx.
  generalize ((emi - principal * r) * (1 + r) ^ m),
    (balance_after annual_rate emi principal m).
  clear. qc_lra.
Qed.

Lemma balance_after_up (annual_rate emi principal : Qc) (k m : nat) :
  0 <= annual_rate ->
  emi < principal * (annual_rate / Qc_of_Z 100 / Qc_of_Z 12) ->
  (k < m)%nat ->
  balance_after annual_rate emi principal k
  < balance_after annual_rate emi principal m.
Proof.
  intros HR Hemi Hkm. pose proof (monthly_rate_nonneg _ HR) as Hr.
  assert (Hstep : forall j,
    balance_after annual_rate emi principal j
    < balance_after annual_rate emi principal (S j)).
  { intros j. rewrite principal_portion.
    set (r := annual_rate / Qc_of_Z 100 / Qc_of_Z 12) in *.
    assert (Hx : 0 < (principal * r - emi) * (1 + r) ^ j).
    { apply Qcmult_pos.
      - revert Hemi. generalize (principal * r). clear. qc_lra.
      - apply pow_pos. revert Hr. generalize r. clear. qc_lra. }
    replace ((emi - principal * r) * (1 + r) ^ j)
      with (- ((principal * r - emi) * (1 + r) ^ j)) by ring.
    revert Hx.
    generalize ((principal * r - emi) * (1 + r) ^ j),
      (balance_after annual_rate emi principal j).
    clear. qc_lra. }
  induction Hkm as [|m Hkm IH]; [apply Hstep|].
  by apply Qclt_trans with (balance_after annual_rate emi principal m).
Qed.

(** X5.  When the payment covers the first month's interest (and the rate is
    not negative) the recorded balance never rises from one year of the
    schedule to a later one. *)
Theorem schedule_balance_falls (principal annual_rate : Qc) (term_years : Z)
    (emi vehicle_price : Qc) (vehicle_info : option (gmap string pyval)) :
  0 <= annual_rate ->
  principal * (annual_rate / Qc_of_Z 100 / Qc_of_Z 12) <= emi ->
  let schedule :=
    generate_amortization_and_depreciation principal annual_rate term_years
      emi vehicle_price vehicle_info in
  forall (y1 y2 : nat) (row1 row2 : Row), (y1 <= y2)%nat ->
    schedule !! y1 = Some row1 -> schedule !! y2 = Some row2 ->
    Loan_Balance row2 <= Loan_Balance row1.
Proof.
  intros HR Hemi schedule y1 y2 row1 row2 Hle H1 H2. subst schedule.
  apply schedule_lookup_inv in H1 as [_ ->].
  apply schedule_lookup_inv in H2 as [_ ->]. cbn [Loan_Balance].
  apply py_max_0_mono, balance_after_down; [done|done|lia].
Qed.

Lemma schedule_balance_falls_witness :
  Loan_Balance
    (row_of_year (Qc_of_Z 1200) (Qc_of_Z 12) (Qc_of_Z 60) (Qc_of_Z 2000) 1)
  <= Loan_Balance (mkRow 0 (py_max 0 (Qc_of_Z 1200)) (Qc_of_Z 2000)).
Proof.
  apply (schedule_balance_falls (Qc_of_Z 1200) (Qc_of_Z 12) 2 (Qc_of_Z 60)
           (Qc_of_Z 2000) None ltac:(by vm_compute) ltac:(by vm_compute)
           0%nat 1%nat); [lia | by vm_compute | by vm_compute].
Defined.

(** X6.  When the payment is smaller than the first month's interest on a
    principal that is not negative, the recorded balance grows strictly from
    each year of the schedule to every later one: the loan is never paid
    off. *)
Theorem schedule_balance_grows (principal annual_rate : Qc) (term_years : Z)
    (emi vehicle_price : Qc) (vehicle_info : option (gmap string pyval)) :
  0 <= principal -> 0 <= annual_rate ->
  emi < principal * (annual_rate / Qc_of_Z 100 / Qc_of_Z 12) ->
  let schedule :=
    generate_amortization_and_depreciation principal annual_rate term_years
      emi vehicle_price vehicle_info in
  forall (y1 y2 : nat) (row1 row2 : Row), (y1 < y2)%nat ->
    schedule !! y1 = Some row1 -> schedule !! y2 = Some row2 ->
    Loan_Balance row1 < Loan_Balance row2.
Proof.
  intros HP HR Hemi schedule y1 y2 row1 row2 Hlt H1 H2. subst schedule.
  apply schedule_lookup_inv in H1 as [_ ->].
  apply schedule_lookup_inv in H2 as [_ ->]. cbn [Loan_Balance].
  assert (Hge : forall m, 0 <= balance_after annual_rate emi principal m).
  { intros m. destruct m as [|m]; [done|].
    apply Qcle_trans with principal; [done|].
    apply Qclt_le_weak.
    apply (balance_after_up annual_rate emi principal 0 (S m)); [done|done|lia]. }
  rewrite !py_max_0_id by apply Hge.
  apply balance_after_up; [done|done|lia].
Qed.

Lemma schedule_balance_grows_witness :
  Loan_Balance (mkRow 0 (py_max 0 (Qc_of_Z 1200)) (Qc_of_Z 2000))
  < Loan_Balance
      (row_of_year (Qc_of_Z 1200) (Qc_of_Z 12) (Qc_of_Z 5) (Qc_of_Z 2000) 1).
Proof.
  apply (schedule_balance_grows (Qc_of_Z 1200) (Qc_of_Z 12) 2 (Qc_of_Z 5)
           (Qc_of_Z 2000) None ltac:(by vm_compute) ltac:(by vm_compute)
           ltac:(by vm_compute) 0%nat 1%nat);
    [lia | by vm_compute | by vm_compute].
Defined.

(** A larger payment leaves a smaller balance after every month. *)
Lemma balance_after_antitone (annual_rate emi emi' principal : Qc) (k : nat) :
  0 <= annual_rate -> emi <= emi' ->
  balance_after annual_rate emi' principal k
  <= balance_after annual_rate emi principal k.
Proof.
  intros HR Hemi. pose proof (monthly_rate_nonneg _ HR) as Hr.
  induction k as [|k IH]; [apply Qcle_refl|].
  rewrite !balance_after_S. unfold monthly_payment.
  set (r := annual_rate / Qc_of_Z 100 / Qc_of_Z 12) in *.
  set (b := balance_after annual_rate emi principal k) in *.
  set (b' := balance_after annual_rate emi' principal k) in *.
  assert (Hx : b' * r <= b * r) by (by apply Qcmult_le_compat_r).
  revert IH Hx Hemi. generalize (b' * r), (b * r), b, b'. clear. qc_lra.
Qed.

(** X7.  A larger payment never leaves a larger recorded balance: with a
    rate that is not negative, in every year the schedule for the payment
    [emi'] records at most what the schedule for a payment [emi <= emi']
    records. *)
Theorem schedule_balance_antitone_in_payment (principal annual_rate : Qc)
    (term_years : Z) (emi emi' vehicle_price : Qc)
    (vehicle_info : option (gmap string pyval)) (y : nat) (row row' : Row) :
  0 <= annual_rate -> emi <= emi' ->
  generate_amortization_and_depreciation principal annual_rate term_years
    emi vehicle_price vehicle_info !! y = Some row ->
  generate_amortization_and_depreciation principal annual_rate term_years
    emi' vehicle_price vehicle_info !! y = Some row' ->
  Loan_Balance row' <= Loan_Balance row.
Proof.
  intros HR Hle Hrow Hrow'.
  apply schedule_lookup_inv in Hrow as [_ ->].
  apply schedule_lookup_inv in Hrow' as [_ ->]. cbn [Loan_Balance].
  by apply py_max_0_mono, balance_after_antitone.
Qed.

Lemma schedule_balance_antitone_in_payment_witness :
  Loan_Balance
    (row_of_year (Qc_of_Z 1200) (Qc_of_Z 12) (Qc_of_Z 90) (Qc_of_Z 2000) 1)
  <= Loan_Balance
       (row_of_year (Qc_of_Z 1200) (Qc_of_Z 12) (Qc_of_Z 60) (Qc_of_Z 2000) 1).
Proof.
  apply (schedule_balance_antitone_in_payment (Qc_of_Z 1200) (Qc_of_Z 12) 2
           (Qc_of_Z 60) (Qc_of_Z 90) (Qc_of_Z 2000) None 1);
    by vm_compute.
Defined.

(** X10.  A negative term gives an empty schedule, on which the underwater
    computation raises [KeyError]; a zero term gives the single row of year 0
    with the clamped principal and the vehicle price. *)
Theorem schedule_degenerate_terms (principal annual_rate : Qc) (term_years : Z)
    (emi vehicle_price : Qc) (vehicle_info : option (gmap string pyval)) :
  let schedule :=
    generate_amortization_and_depreciation principal annual_rate term_years
      emi vehicle_price vehicle_info in
  ((term_years < 0)%Z ->
     schedule = [] /\ max_underwater schedule = Raise KeyError) /\
  (term_years = 0%Z ->
     schedule = [mkRow 0 (py_max 0 principal) vehicle_price]).
Proof.
  intros schedule. subst schedule. split.
  - intros HT. rewrite schedule_rows.
    replace (Z.to_nat (term_years + 1)) with 0%nat by lia. done.
  - intros ->. done.
Qed.

Lemma schedule_degenerate_terms_witness :
  let schedule :=
    generate_amortization_and_depreciation (Qc_of_Z 1200) (Qc_of_Z 5) (-1)
      (Qc_of_Z 50) (Qc_of_Z 2000) None in
  schedule = [] /\ max_underwater schedule = Raise KeyError.
Proof.
  apply (schedule_degenerate_terms (Qc_of_Z 1200) (Qc_of_Z 5) (-1)
           (Qc_of_Z 50) (Qc_of_Z 2000) None). lia.
Defined.

(** ** Further properties of the cost of ownership *)

Lemma breakdown_of_get (loan ins mnt : Qc) (term_years : Z) (fuel : Qc) :
  let b := breakdown_of loan ins mnt term_years fuel in
  breakdown_get b "Loan Payments" 0 = loan /\
  breakdown_get b "Insurance" 0 = ins * Qc_of_Z term_years /\
  breakdown_get b "Maintenance" 0 = mnt * Qc_of_Z term_years /\
  breakdown_get b "Fuel/Charging" 0 = fuel /\
  breakdown_get b "Total TCO" 0
  = loan + ins * Qc_of_Z term_years + mnt * Qc_of_Z term_years + fuel.
Proof. done. Qed.

(** X11.  For an Electric record the ["Fuel/Charging"] cost is
    [(12000 / 100) * efficiency * electricity_price * term_years], whatever
    the price of gas. *)
Theorem electric_energy_cost (d : gmap string pyval) (total_loan_cost : Qc)
    (term_years : Z) (gas_price electricity_price efficiency : Qc) :
  is_record d ->
  numeric d "avg_insurance_per_year" ->
  numeric d "avg_maintenance_per_year" ->
  get d "fuel_type" (PStr "Gas") = PStr "Electric" ->
  get d "efficiency" (PNum (Qc_of_Z 30)) = PNum efficiency ->
  exists b,
    calculate_total_cost_of_ownership (Some d) total_loan_cost term_years
      gas_price electricity_price = Ok b /\
    b !! 3%nat
    = Some ("Fuel/Charging"%string,
            Qc_of_Z 120 * efficiency * electricity_price * Qc_of_Z term_years) /\
    (forall gas_price',
       calculate_total_cost_of_ownership (Some d) total_loan_cost term_years
         gas_price' electricity_price = Ok b).
Proof.
  intros Hrec Hins Hmnt Hft Heff.
  destruct (numeric_get d _ 0 Hins) as [ins Hi].
  destruct (numeric_get d _ 0 Hmnt) as [mnt Hm].
  eexists. split; [by apply (tco_electric d _ _ _ _ ins mnt)|].
  split.
  - by replace (Qc_of_Z 120) with (Qc_of_Z 12000 / Qc_of_Z 100)
      by (apply Qc_is_canon; by vm_compute).
  - intros gas_price'. by apply (tco_electric d _ _ _ _ ins mnt).
Qed.

Lemma electric_energy_cost_witness :
  exists b,
    calculate_total_cost_of_ownership (Some example_electric_record)
      (Qc_of_Z 40000) 5 (Q2Qc (35 # 10)) (Q2Qc (15 # 100)) = Ok b /\
    b !! 3%nat
    = Some ("Fuel/Charging"%string,
            Qc_of_Z 120 * Qc_of_Z 25 * Q2Qc (15 # 100) * Qc_of_Z 5) /\
    (forall gas_price',
       calculate_total_cost_of_ownership (Some example_electric_record)
         (Qc_of_Z 40000) 5 gas_price' (Q2Qc (15 # 100)) = Ok b).
Proof.
  apply (electric_energy_cost example_electric_record (Qc_of_Z 40000) 5
           (Q2Qc (35 # 10)) (Q2Qc (15 # 100)) (Qc_of_Z 25));
    [by vm_compute | intros s; by vm_compute | intros s; by vm_compute
    | by vm_compute | by vm_compute].
Defined.

(** X12.  The defaults of the lookups: a record that has none of the four
    columns is costed as a Gas vehicle of efficiency 30 with no insurance and
    no maintenance, so its total is the loan cost plus
    [400 * gas_price * term_years]. *)
Theorem tco_defaults (d : gmap string pyval) (total_loan_cost : Qc)
    (term_years : Z) (gas_price electricity_price : Qc) :
  is_record d ->
  d !! "avg_insurance_per_year"%string = None ->
  d !! "avg_maintenance_per_year"%string = None ->
  d !! "fuel_type"%string = None ->
  d !! "efficiency"%string = None ->
  exists b,
    calculate_total_cost_of_ownership (Some d) total_loan_cost term_years
      gas_price electricity_price = Ok b /\
    breakdown_get b "Insurance" 0 = 0 /\
    breakdown_get b "Maintenance" 0 = 0 /\
    breakdown_get b "Fuel/Charging" 0
    = Qc_of_Z 400 * gas_price * Qc_of_Z term_years /\
    breakdown_get b "Total TCO" 0
    = total_loan_cost + Qc_of_Z 400 * gas_price * Qc_of_Z term_years.
Proof.
  intros Hrec Hi Hm Hf He.
  eexists. split.
  { apply (tco_gas d _ _ _ _ 0 0 Hrec); unfold get.
    - by rewrite Hi.
    - by rewrite Hm.
    - by rewrite Hf.
    - by rewrite He. }
  rewrite bool_decide_eq_true_2 by (by vm_compute).
  replace (Qc_of_Z 12000 / Qc_of_Z 30) with (Qc_of_Z 400)
    by (apply Qc_is_canon; by vm_compute).
  destruct (breakdown_of_get total_loan_cost 0 0 term_years
              (Qc_of_Z 400 * gas_price * Qc_of_Z term_years))
    as (_ & -> & -> & -> & ->).
  split; [ring|]. split; [ring|]. split; [done|]. ring.
Qed.

Lemma tco_defaults_witness :
  exists b,
    calculate_total_cost_of_ownership (Some example_bare_record)
      (Qc_of_Z 35000) 5 (Q2Qc (35 # 10)) (Q2Qc (15 # 100)) = Ok b /\
    breakdown_get b "Insurance" 0 = 0 /\
    breakdown_get b "Maintenance" 0 = 0 /\
    breakdown_get b "Fuel/Charging" 0
    = Qc_of_Z 400 * Q2Qc (35 # 10) * Qc_of_Z 5 /\
    breakdown_get b "Total TCO" 0
    = Qc_of_Z 35000 + Qc_of_Z 400 * Q2Qc (35 # 10) * Qc_of_Z 5.
Proof.
  apply (tco_defaults example_bare_record (Qc_of_Z 35000) 5
           (Q2Qc (35 # 10)) (Q2Qc (15 # 100))); by vm_compute.
Defined.

(** X13.  On a Gas record an efficiency that is zero or negative costs no
    fuel: the total is loan payments, insurance and maintenance. *)
Theorem gas_nonpositive_efficiency (d : gmap string pyval) (total_loan_cost : Qc)
    (term_years : Z) (gas_price electricity_price efficiency : Qc) :
  is_record d ->
  numeric d "avg_insurance_per_year" ->
  numeric d "avg_maintenance_per_year" ->
  get d "fuel_type" (PStr "Gas") = PStr "Gas" ->
  get d "efficiency" (PNum (Qc_of_Z 30)) = PNum efficiency ->
  efficiency <= 0 ->
  exists b,
    calculate_total_cost_of_ownership (Some d) total_loan_cost term_years
      gas_price electricity_price = Ok b /\
    breakdown_get b "Fuel/Charging" 0 = 0 /\
    breakdown_get b "Total TCO" 0
    = breakdown_get b "Loan Payments" 0 + breakdown_get b "Insurance" 0
      + breakdown_get b "Maintenance" 0.
Proof.
  intros Hrec Hins Hmnt Hft Heff Hle.
  destruct (numeric_get d _ 0 Hins) as [ins Hi].
  destruct (numeric_get d _ 0 Hmnt) as [mnt Hm].
  eexists. split; [by apply (tco_gas d _ _ _ _ ins mnt)|].
  rewrite bool_decide_eq_false_2 by (by apply Qcle_not_lt).
  destruct (breakdown_of_get total_loan_cost ins mnt term_years
              (0 * gas_price * Qc_of_Z term_years))
    as (-> & -> & -> & -> & ->).
  split; ring.
Qed.

Lemma gas_nonpositive_efficiency_witness :
  exists b,
    calculate_total_cost_of_ownership
      (Some (<["efficiency"%string := PNum (- Qc_of_Z 5)]> example_gas_record))
      (Qc_of_Z 35000) 5 (Q2Qc (35 # 10)) (Q2Qc (15 # 100)) = Ok b /\
    breakdown_get b "Fuel/Charging" 0 = 0 /\
    breakdown_get b "Total TCO" 0
    = breakdown_get b "Loan Payments" 0 + breakdown_get b "Insurance" 0
      + breakdown_get b "Maintenance" 0.
Proof.
  apply (gas_nonpositive_efficiency
           (<["efficiency"%string := PNum (- Qc_of_Z 5)]> example_gas_record)
           (Qc_of_Z 35000) 5 (Q2Qc (35 # 10)) (Q2Qc (15 # 100)) (- Qc_of_Z 5));
    [by vm_compute | intros s; by vm_compute | intros s; by vm_compute
    | by vm_compute | by vm_compute | by vm_compute].
Defined.

(** The yearly energy cost is not negative when the efficiency and the
    prices are not. *)
Lemma tco_per_year_nonneg (d : gmap string pyval)
    (gas_price electricity_price ins mnt efficiency : Qc) :
  is_record d ->
  get d "avg_insurance_per_year" (PNum 0) = PNum ins ->
  get d "avg_maintenance_per_year" (PNum 0) = PNum mnt ->
  get d "efficiency" (PNum (Qc_of_Z 30)) = PNum efficiency ->
  0 <= efficiency -> 0 <= gas_price -> 0 <= electricity_price ->
  exists fuel_per_year,
    0 <= fuel_per_year /\
    forall (total_loan_cost : Qc) (term_years : Z),
      calculate_total_cost_of_ownership (Some d) total_loan_cost term_years
        gas_price electricity_price
      = Ok (breakdown_of total_loan_cost ins mnt term_years
              (fuel_per_year * Qc_of_Z term_years)).
Proof.
  intros Hrec Hi Hm He Heff Hgas Hel.
  destruct (py_eq_str (get d "fuel_type" (PStr "Gas")) "Gas") eqn:Hg.
  { apply py_eq_str_true in Hg. eexists. split; [|intros loan T; by apply tco_gas].
    apply Qcmult_nonneg; [|done].
    case_bool_decide; [|done]. by apply Qcdiv_nonneg. }
  destruct (py_eq_str (get d "fuel_type" (PStr "Gas")) "Electric") eqn:Hl.
  { apply py_eq_str_true in Hl.
    eexists. split; [|intros loan T; by apply tco_electric].
    repeat apply Qcmult_nonneg; done. }
  apply py_eq_str_false in Hg, Hl. exists 0. split; [done|]. intros loan T.
  rewrite Qcmult_0_l. by apply tco_other.
Qed.

(** X14.  With costs, efficiency and prices that are not negative, a longer
    term never lowers the insurance, maintenance or energy cost, nor the
    total for a given loan cost. *)
Theorem tco_monotone_in_term (d : gmap string pyval) (total_loan_cost : Qc)
    (term1 term2 : Z) (gas_price electricity_price ins mnt efficiency : Qc) :
  is_record d ->
  get d "avg_insurance_per_year" (PNum 0) = PNum ins ->
  get d "avg_maintenance_per_year" (PNum 0) = PNum mnt ->
  get d "efficiency" (PNum (Qc_of_Z 30)) = PNum efficiency ->
  0 <= ins -> 0 <= mnt -> 0 <= efficiency ->
  0 <= gas_price -> 0 <= electricity_price ->
  (term1 <= term2)%Z ->
  exists b1 b2,
    calculate_total_cost_of_ownership (Some d) total_loan_cost term1
      gas_price electricity_price = Ok b1 /\
    calculate_total_cost_of_ownership (Some d) total_loan_cost term2
      gas_price electricity_price = Ok b2 /\
    breakdown_get b1 "Insurance" 0 <= breakdown_get b2 "Insurance" 0 /\
    breakdown_get b1 "Maintenance" 0 <= breakdown_get b2 "Maintenance" 0 /\
    breakdown_get b1 "Fuel/Charging" 0 <= breakdown_get b2 "Fuel/Charging" 0 /\
    breakdown_get b1 "Total TCO" 0 <= breakdown_get b2 "Total TCO" 0.
Proof.
  intros Hrec Hi Hm He Hins Hmnt Heff Hgas Hel HT.
  destruct (tco_per_year_nonneg d gas_price electricity_price ins mnt efficiency
              Hrec Hi Hm He Heff Hgas Hel) as (f & Hf & Htco).
  do 2 eexists. split; [apply Htco|]. split; [apply Htco|].
  destruct (breakdown_of_get total_loan_cost ins mnt term1 (f * Qc_of_Z term1))
    as (_ & -> & -> & -> & ->).
  destruct (breakdown_of_get total_loan_cost ins mnt term2 (f * Qc_of_Z term2))
    as (_ & -> & -> & -> & ->).
  assert (Hq : Qc_of_Z term1 <= Qc_of_Z term2).
  { unfold Qcle, Qc_of_Z. cbn [this]. by rewrite <- Zle_Qle. }
  assert (Hmono : forall c, 0 <= c -> c * Qc_of_Z term1 <= c * Qc_of_Z term2).
  { intros c Hc. rewrite !(Qcmult_comm c). by apply Qcmult_le_compat_r. }
  pose proof (Hmono ins Hins) as H1. pose proof (Hmono mnt Hmnt) as H2.
  pose proof (Hmono f Hf) as H3.
  split; [done|]. split; [done|]. split; [done|].
  revert H1 H2 H3.
  generalize (ins * Qc_of_Z term1), (ins * Qc_of_Z term2),
    (mnt * Qc_of_Z term1), (mnt * Qc_of_Z term2),
    (f * Qc_of_Z term1), (f * Qc_of_Z term2).
  clear. qc_lra.
Qed.

Lemma tco_monotone_in_term_witness :
  exists b1 b2,
    calculate_total_cost_of_ownership (Some example_gas_record)
      (Qc_of_Z 35000) 3 (Q2Qc (35 # 10)) (Q2Qc (15 # 100)) = Ok b1 /\
    calculate_total_cost_of_ownership (Some example_gas_record)
      (Qc_of_Z 35000) 5 (Q2Qc (35 # 10)) (Q2Qc (15 # 100)) = Ok b2 /\
    breakdown_get b1 "Insurance" 0 <= breakdown_get b2 "Insurance" 0 /\
    breakdown_get b1 "Maintenance" 0 <= breakdown_get b2 "Maintenance" 0 /\
    breakdown_get b1 "Fuel/Charging" 0 <= breakdown_get b2 "Fuel/Charging" 0 /\
    breakdown_get b1 "Total TCO" 0 <= breakdown_get b2 "Total TCO" 0.
Proof.
  apply (tco_monotone_in_term example_gas_record (Qc_of_Z 35000) 3 5
           (Q2Qc (35 # 10)) (Q2Qc (15 # 100)) (Qc_of_Z 1500) (Qc_of_Z 400)
           (Qc_of_Z 30));
    [by vm_compute | by vm_compute | by vm_compute | by vm_compute
    | by vm_compute | by vm_compute | by vm_compute | by vm_compute
    | by vm_compute | lia].
Defined.

(** X15.  With costs, prices and a term that are not negative every entry of
    the breakdown is not negative and the total is at least the loan cost. *)
Theorem tco_nonneg (d : gmap string pyval) (total_loan_cost : Qc)
    (term_years : Z) (gas_price electricity_price ins mnt efficiency : Qc) :
  is_record d ->
  get d "avg_insurance_per_year" (PNum 0) = PNum ins ->
  get d "avg_maintenance_per_year" (PNum 0) = PNum mnt ->
  get d "efficiency" (PNum (Qc_of_Z 30)) = PNum efficiency ->
  0 <= ins -> 0 <= mnt -> 0 <= efficiency ->
  0 <= total_loan_cost -> (0 <= term_years)%Z ->
  0 <= gas_price -> 0 <= electricity_price ->
  exists b,
    calculate_total_cost_of_ownership (Some d) total_loan_cost term_years
      gas_price electricity_price = Ok b /\
    (forall key v, (key, v) ∈ b -> 0 <= v) /\
    total_loan_cost <= breakdown_get b "Total TCO" 0.
Proof.
  intros Hrec Hi Hm He Hins Hmnt Heff Hloan HT Hgas Hel.
  pose proof (Qc_of_Z_nonneg term_years HT) as HTq.
  assert (Hfuel : exists fuel,
    calculate_total_cost_of_ownership (Some d) total_loan_cost term_years
      gas_price electricity_price
    = Ok (breakdown_of total_loan_cost ins mnt term_years fuel) /\ 0 <= fuel).
  { destruct (py_eq_str (get d "fuel_type" (PStr "Gas")) "Gas") eqn:Hg.
    { apply py_eq_str_true in Hg. eexists. split; [by apply tco_gas|].
      repeat apply Qcmult_nonneg; try done.
      case_bool_decide; [|done]. by apply Qcdiv_nonneg. }
    destruct (py_eq_str (get d "fuel_type" (PStr "Gas")) "Electric") eqn:Hl.
    { apply py_eq_str_true in Hl. eexists. split; [by apply tco_electric|].
      repeat apply Qcmult_nonneg; try done. }
    apply py_eq_str_false in Hg, Hl. exists 0. split; [by apply tco_other|done]. }
  destruct Hfuel as (fuel & -> & Hf).
  assert (Hic : 0 <= ins * Qc_of_Z term_years) by (by apply Qcmult_nonneg).
  assert (Hmc : 0 <= mnt * Qc_of_Z term_years) by (by apply Qcmult_nonneg).
  assert (Htot : total_loan_cost
                 <= total_loan_cost + ins * Qc_of_Z term_years
                    + mnt * Qc_of_Z term_years + fuel).
  { revert Hic Hmc Hf.
    generalize (ins * Qc_of_Z term_years), (mnt * Qc_of_Z term_years).
    clear. qc_lra. }
  eexists. split; [done|]. split; [|done].
  intros key v Hin. unfold breakdown_of in Hin.
  repeat (apply elem_of_cons in Hin as [[= -> ->]|Hin]; [try done|]).
  - by apply Qcle_trans with total_loan_cost.
  - by apply elem_of_nil in Hin.
Qed.

Lemma tco_nonneg_witness :
  exists b,
    calculate_total_cost_of_ownership (Some example_gas_record)
      (Qc_of_Z 35000) 5 (Q2Qc (35 # 10)) (Q2Qc (15 # 100)) = Ok b /\
    (forall key v, (key, v) ∈ b -> 0 <= v) /\
    Qc_of_Z 35000 <= breakdown_get b "Total TCO" 0.
Proof.
  apply (tco_nonneg example_gas_record (Qc_of_Z 35000) 5 (Q2Qc (35 # 10))
           (Q2Qc (15 # 100)) (Qc_of_Z 1500) (Qc_of_Z 400) (Qc_of_Z 30));
    [by vm_compute | by vm_compute | by vm_compute | by vm_compute
    | by vm_compute | by vm_compute | by vm_compute | by vm_compute | lia
    | by vm_compute | by vm_compute].
Defined.

(** ** Further properties of the calculation block of app.py *)

(** The value of the health check on a positive income and a term that is
    not zero. *)
Lemma financial_health_value (monthly_income : Qc) (tco_breakdown : breakdown)
    (loan_term : Z) :
  0 < monthly_income -> loan_term <> 0%Z ->
  let tco_ratio :=
    breakdown_get tco_breakdown "Total TCO" 0 / Qc_of_Z (loan_term * 12)
    / monthly_income * Qc_of_Z 100 in
  financial_health monthly_income tco_breakdown loan_term
  = Ok (Some (tco_ratio,
              if bool_decide (tco_ratio < Qc_of_Z 15) then "Good"%string
              else if bool_decide (tco_ratio < Qc_of_Z 20) then "Borderline"%string
              else "High-Risk"%string)).
Proof.
  intros Hinc HT tco_ratio. unfold financial_health.
  rewrite (bool_decide_eq_true_2 (monthly_income ≠ 0)) by (by apply Qc_pos_neq).
  rewrite (bool_decide_eq_true_2 (0 < monthly_income)) by done. cbn.
  rewrite py_truediv_ok; [cbn|].
  - by rewrite py_truediv_ok by (by apply Qc_pos_neq).
  - unfold Qc_of_Z. intros H. apply (f_equal this) in H. cbn in H.
    injection H as H. lia.
Qed.

(** X16.  When the vehicle is absent ([None] or an empty dict) the cost of
    ownership is the empty dict, and the health check then reads a total of 0:
    for any positive income it reports a ratio of 0 and ["Good"]. *)
Theorem absent_vehicle_health (vehicle_info : option (gmap string pyval))
    (total_loan_cost : Qc) (loan_term : Z)
    (gas_price electricity_price monthly_income : Qc) :
  falsy vehicle_info = true -> 0 < monthly_income -> (0 < loan_term)%Z ->
  exists b,
    calculate_total_cost_of_ownership vehicle_info total_loan_cost loan_term
      gas_price electricity_price = Ok b /\
    b = [] /\
    financial_health monthly_income b loan_term = Ok (Some (0, "Good"%string)).
Proof.
  intros Hf Hinc HT. exists []. split; [|split; [done|]].
  - unfold calculate_total_cost_of_ownership.
    destruct vehicle_info as [d|]; [|done]. by rewrite Hf.
  - rewrite financial_health_value by (done || lia). cbn [breakdown_get].
    replace (0 / Qc_of_Z (loan_term * 12) / monthly_income * Qc_of_Z 100)
      with 0 by (unfold Qcdiv; ring).
    by rewrite bool_decide_eq_true_2 by (by vm_compute).
Qed.

Lemma absent_vehicle_health_witness :
  exists b,
    calculate_total_cost_of_ownership None (Qc_of_Z 35000) 5
      (Q2Qc (35 # 10)) (Q2Qc (15 # 100)) = Ok b /\
    b = [] /\
    financial_health (Qc_of_Z 6000) b 5 = Ok (Some (0, "Good"%string)).
Proof.
  apply (absent_vehicle_health None (Qc_of_Z 35000) 5 (Q2Qc (35 # 10))
           (Q2Qc (15 # 100)) (Qc_of_Z 6000));
    [reflexivity | by vm_compute | lia].
Defined.

(** X17.  The down-payment share never raises, and for a down payment
    between 0 and the price it lies between 0 and 1 while the principal lies
    between 0 and the price. *)
Theorem down_payment_percentage_bounds (down_payment vehicle_price : Qc) :
  exists p,
    down_payment_percentage down_payment vehicle_price = Ok p /\
    (0 <= down_payment -> down_payment <= vehicle_price ->
     0 <= p /\ p <= 1 /\
     0 <= loan_principal vehicle_price down_payment /\
     loan_principal vehicle_price down_payment <= vehicle_price).
Proof.
  unfold down_payment_percentage, loan_principal. case_bool_decide as Hp.
  - rewrite py_truediv_ok by (by apply Qc_pos_neq). eexists. split; [done|].
    intros H0 Hle. split; [by apply Qcdiv_nonneg|]. split.
    + assert (Hx : 0 <= (vehicle_price - down_payment) / vehicle_price).
      { apply Qcdiv_nonneg; [|done]. revert Hle. clear. qc_lra. }
      replace ((vehicle_price - down_payment) / vehicle_price)
        with (1 - down_payment / vehicle_price) in Hx
        by (field; by apply Qc_pos_neq).
      revert Hx. generalize (down_payment / vehicle_price). clear. qc_lra.
    + revert H0 Hle. clear. qc_lra.
  - exists 0. split; [done|]. intros H0 Hle.
    split; [done|]. split; [done|]. revert H0 Hle. clear. qc_lra.
Qed.

Lemma down_payment_percentage_bounds_witness :
  exists p,
    down_payment_percentage (Qc_of_Z 4000) (Qc_of_Z 40000) = Ok p /\
    (0 <= Qc_of_Z 4000 -> Qc_of_Z 4000 <= Qc_of_Z 40000 ->
     0 <= p /\ p <= 1 /\
     0 <= loan_principal (Qc_of_Z 40000) (Qc_of_Z 4000) /\
     loan_principal (Qc_of_Z 40000) (Qc_of_Z 4000) <= Qc_of_Z 40000).
Proof.
  apply (down_payment_percentage_bounds (Qc_of_Z 4000) (Qc_of_Z 40000)).
Defined.

(** X18.  No option of the credit-score select box contains ["Used"], so for
    every selectable label the vehicle type is ["New"] and the feature
    ['vehicle_type_Used'] is 0. *)
Theorem vehicle_type_always_new (i : nat) (label : string) (score : Z) :
  credit_score_map !! i = Some (label, score) ->
  vehicle_type label = "New"%string /\ vehicle_type_Used label = 0%Z.
Proof.
  intros H.
  do 5 (destruct i as [|i]; [injection H as <- <-; by vm_compute|]).
  done.
Qed.

Lemma vehicle_type_always_new_witness :
  vehicle_type "Average: 660-719" = "New"%string /\
  vehicle_type_Used "Average: 660-719" = 0%Z.
Proof.
  apply (vehicle_type_always_new 2 "Average: 660-719" 690). reflexivity.
Defined.

(** What [max_underwater] returns on a frame that has rows. *)
Lemma max_underwater_spec (schedule_df : list Row) :
  schedule_df <> [] ->
  exists peak,
    max_underwater schedule_df = Ok (Some peak) /\
    (exists i row, schedule_df !! i = Some row /\
       peak = clip_lower 0 (Loan_Balance row - Car_Value row)) /\
    (forall i row, schedule_df !! i = Some row ->
       clip_lower 0 (Loan_Balance row - Car_Value row) <= peak).
Proof.
  intros Hne.
  set (f := fun row => clip_lower 0 (Loan_Balance row - Car_Value row)).
  assert (Hu : underwater_amounts schedule_df = Ok (map f schedule_df)).
  { unfold underwater_amounts. by destruct schedule_df. }
  destruct (series_max_is_Some (map f schedule_df)) as [peak Hpeak].
  { by destruct schedule_df. }
  destruct (series_max_spec _ _ Hpeak) as [Hin Hall].
  exists peak. split; [unfold max_underwater; rewrite Hu; cbn; by rewrite Hpeak|].
  split.
  - apply list_elem_of_fmap in Hin as (row & -> & Hrow).
    apply list_elem_of_lookup in Hrow as [i Hi]. by exists i, row.
  - intros i row Hi. apply Hall, list_elem_of_fmap. exists row. split; [done|].
    apply list_elem_of_lookup. by exists i.
Qed.

(** X19.  On a frame that has rows the peak is not negative, and it is
    positive exactly when some year has a balance above the car value: the
    test [max_underwater > 0] of the dashboard is the test "underwater in
    some year". *)
Theorem max_underwater_positive_iff (schedule_df : list Row) :
  schedule_df <> [] ->
  exists peak,
    max_underwater schedule_df = Ok (Some peak) /\
    0 <= peak /\
    (0 < peak <->
     exists i row, schedule_df !! i = Some row /\
       Car_Value row < Loan_Balance row).
Proof.
  intros Hne. destruct (max_underwater_spec schedule_df Hne)
    as (peak & Hmax & (i & row & Hi & Hpeak) & Hall).
  exists peak. split; [done|]. split.
  { rewrite Hpeak. apply clip_lower_spec. }
  split.
  - intros Hpos. exists i, row. split; [done|].
    rewrite Hpeak in Hpos. unfold clip_lower in Hpos.
    case_bool_decide; [by apply Qclt_not_eq in Hpos|].
    revert Hpos. generalize (Loan_Balance row), (Car_Value row). clear. qc_lra.
  - intros (j & row' & Hj & Hlt).
    apply Qclt_le_trans
      with (clip_lower 0 (Loan_Balance row' - Car_Value row')); [|by eapply Hall].
    unfold clip_lower. case_bool_decide as Hc.
    + exfalso. revert Hc Hlt.
      generalize (Loan_Balance row'), (Car_Value row'). clear. qc_lra.
    + revert Hlt. generalize (Loan_Balance row'), (Car_Value row'). clear. qc_lra.
Qed.

Lemma max_underwater_positive_iff_witness :
  exists peak,
    max_underwater [mkRow 0 (Qc_of_Z 900) (Qc_of_Z 1000);
                    mkRow 1 (Qc_of_Z 880) (Qc_of_Z 850)] = Ok (Some peak) /\
    0 <= peak /\
    (0 < peak <->
     exists i row,
       [mkRow 0 (Qc_of_Z 900) (Qc_of_Z 1000);
        mkRow 1 (Qc_of_Z 880) (Qc_of_Z 850)] !! i = Some row /\
       Car_Value row < Loan_Balance row).
Proof.
  apply (max_underwater_positive_iff
           [mkRow 0 (Qc_of_Z 900) (Qc_of_Z 1000);
            mkRow 1 (Qc_of_Z 880) (Qc_of_Z 850)]).
  by vm_compute.
Defined.

(** X20.  In the dashboard's flow (a down payment between 0 and the price, a
    rate that is not negative, a positive term and the payment
    [calculate_emi] returns) the loan is not underwater at origination nor in
    the last year: the first and the last entry of the series are 0. *)
Theorem underwater_endpoints (vehicle_price down_payment annual_rate : Qc)
    (term_years : Z) (emi : Qc) (vehicle_info : option (gmap string pyval)) :
  0 <= down_payment -> down_payment <= vehicle_price ->
  0 <= annual_rate -> (0 < term_years)%Z ->
  let principal := loan_principal vehicle_price down_payment in
  calculate_emi principal annual_rate term_years = Ok emi ->
  exists series,
    underwater_amounts
      (generate_amortization_and_depreciation principal annual_rate term_years
         emi vehicle_price vehicle_info) = Ok series /\
    series !! 0%nat = Some 0 /\
    last series = Some 0.
Proof.
  intros Hd Hle HR HT principal Hemi.
  assert (HP : 0 <= principal).
  { subst principal. unfold loan_principal. revert Hle. clear. qc_lra. }
  assert (Hprice : 0 <= vehicle_price) by (by apply Qcle_trans with down_payment).
  set (schedule := generate_amortization_and_depreciation _ _ _ _ _ _).
  set (f := fun row => clip_lower 0 (Loan_Balance row - Car_Value row)).
  assert (Hlen : length schedule = S (Z.to_nat term_years)).
  { subst schedule. rewrite schedule_length. lia. }
  exists (map f schedule). split.
  { unfold underwater_amounts. destruct schedule; [done|]. done. }
  assert (Hclip : forall x, x <= 0 -> clip_lower 0 x = 0).
  { intros x Hx. unfold clip_lower. case_bool_decide as Hc; [done|].
    apply Qcnot_lt_le in Hc. by apply Qcle_antisym. }
  split.
  - rewrite list_lookup_fmap. subst schedule.
    rewrite schedule_lookup by lia. cbn. f_equal. subst f. cbn.
    apply Hclip. rewrite py_max_0_id by done.
    replace (vehicle_price * (1 - annual_depreciation_rate) ^ 0)
      with vehicle_price by (cbn [Qcpower]; ring).
    subst principal. unfold loan_principal. revert Hd. clear. qc_lra.
  - rewrite last_lookup, length_map, Hlen. cbn [pred].
    rewrite list_lookup_fmap. subst schedule.
    rewrite (schedule_last_row principal annual_rate term_years vehicle_price
               vehicle_info emi HR HT Hemi).
    cbn. f_equal. subst f. cbn. apply Hclip.
    assert (Hv : 0 <= vehicle_price
                      * (1 - annual_depreciation_rate) ^ Z.to_nat term_years).
    { apply Qcmult_nonneg; [done|]. by apply Qcpower_pos. }
    revert Hv. generalize (vehicle_price
      * (1 - annual_depreciation_rate) ^ Z.to_nat term_years). clear. qc_lra.
Qed.

Lemma underwater_endpoints_witness :
  exists series,
    underwater_amounts
      (generate_amortization_and_depreciation
         (loan_principal (Qc_of_Z 2000) (Qc_of_Z 800)) 0 2
         (loan_principal (Qc_of_Z 2000) (Qc_of_Z 800) / Qc_of_Z (2 * 12))
         (Qc_of_Z 2000) None) = Ok series /\
    series !! 0%nat = Some 0 /\
    last series = Some 0.
Proof.
  apply (underwater_endpoints (Qc_of_Z 2000) (Qc_of_Z 800) 0 2
           (loan_principal (Qc_of_Z 2000) (Qc_of_Z 800) / Qc_of_Z (2 * 12)) None);
    [by vm_compute | by vm_compute | by vm_compute | lia | by vm_compute].
Defined.

(** X21.  The health check is skipped, without any division, when the income
    is zero or negative, whatever the breakdown and the term. *)
Theorem financial_health_guards (monthly_income : Qc) (tco_breakdown : breakdown)
    (loan_term : Z) :
  monthly_income <= 0 ->
  financial_health monthly_income tco_breakdown loan_term = Ok None.
Proof.
  intros Hle. unfold financial_health.
  rewrite (bool_decide_eq_false_2 (0 < monthly_income))
    by (by apply Qcle_not_lt).
  by rewrite andb_false_r.
Qed.

Lemma financial_health_guards_witness :
  financial_health 0 [("Total TCO"%string, Qc_of_Z 86400)] 0 = Ok None.
Proof.
  apply (financial_health_guards 0 [("Total TCO"%string, Qc_of_Z 86400)] 0).
  by vm_compute.
Defined.

(** X22.  A higher income never worsens the health check: for a total that is
    not negative the ratio does not rise with the income, a ["Good"] status
    stays ["Good"], and a ["High-Risk"] status at the higher income was
    ["High-Risk"] at the lower one. *)
Theorem financial_health_income_monotone (income1 income2 : Qc)
    (tco_breakdown : breakdown) (loan_term : Z) :
  0 < income1 -> income1 <= income2 -> (0 < loan_term)%Z ->
  0 <= breakdown_get tco_breakdown "Total TCO" 0 ->
  exists ratio1 status1 ratio2 status2,
    financial_health income1 tco_breakdown loan_term
      = Ok (Some (ratio1, status1)) /\
    financial_health income2 tco_breakdown loan_term
      = Ok (Some (ratio2, status2)) /\
    ratio2 <= ratio1 /\
    (status1 = "Good"%string -> status2 = "Good"%string) /\
    (status2 = "High-Risk"%string -> status1 = "High-Risk"%string).
Proof.
  intros H1 H12 HT Htot.
  assert (H2 : 0 < income2) by (by apply Qclt_le_trans with income1).
  do 4 eexists.
  split; [apply financial_health_value; [done|lia]|].
  split; [apply financial_health_value; [done|lia]|].
  set (m := breakdown_get tco_breakdown "Total TCO" 0 / Qc_of_Z (loan_term * 12)).
  assert (Hm : 0 <= m).
  { apply Qcdiv_nonneg; [done|]. apply Qc_of_Z_pos. lia. }
  clearbody m.
  assert (Hle : m / income2 * Qc_of_Z 100 <= m / income1 * Qc_of_Z 100).
  { assert (Hx : 0 <= m * (income2 - income1) * Qc_of_Z 100 / (income1 * income2)).
    { apply Qcdiv_nonneg; [|by apply Qcmult_pos].
      repeat apply Qcmult_nonneg; try done. revert H12. clear. qc_lra. }
    replace (m * (income2 - income1) * Qc_of_Z 100 / (income1 * income2))
      with (m / income1 * Qc_of_Z 100 - m / income2 * Qc_of_Z 100) in Hx
      by (field; split; by apply Qc_pos_neq).
    revert Hx.
    generalize (m / income1 * Qc_of_Z 100), (m / income2 * Qc_of_Z 100).
    clear. qc_lra. }
  split; [done|].
  revert Hle.
  generalize (m / income1 * Qc_of_Z 100) as r1, (m / income2 * Qc_of_Z 100) as r2.
  intros r1 r2 Hle.
  assert (H15 : Qc_of_Z 15 < Qc_of_Z 20) by (by vm_compute).
  split; intros Hs; repeat case_bool_decide; try done;
    repeat match goal with
           | H : ~ (_ < _) |- _ => apply Qcnot_lt_le in H
           end;
    exfalso; clear Hs; qc_to_q; lra.
Qed.

Lemma financial_health_income_monotone_witness :
  exists ratio1 status1 ratio2 status2,
    financial_health (Qc_of_Z 5000) [("Total TCO"%string, Qc_of_Z 86400)] 6
      = Ok (Some (ratio1, status1)) /\
    financial_health (Qc_of_Z 9000) [("Total TCO"%string, Qc_of_Z 86400)] 6
      = Ok (Some (ratio2, status2)) /\
    ratio2 <= ratio1 /\
    (status1 = "Good"%string -> status2 = "Good"%string) /\
    (status2 = "High-Risk"%string -> status1 = "High-Risk"%string).
Proof.
  apply (financial_health_income_monotone (Qc_of_Z 5000) (Qc_of_Z 9000)
           [("Total TCO"%string, Qc_of_Z 86400)] 6);
    [by vm_compute | by vm_compute | lia | by vm_compute].
Defined.
